(** * terraform-provider-googleworkspace: handlers of the provider, and what
      they promise about the Terraform state and the Google API calls.

    The provider is a translation layer between Terraform's declared records
    and two Google services.  The handlers are embedded as programs in a state
    monad over the remote service, which is a parameter: every theorem holds
    for any behaviour of the Admin SDK and of Cloud Identity. *)

From Stdlib Require Import String List ZArith Bool Lia.
From ExtLib Require Import Structures.Monad Data.Monads.StateMonad.
Import ListNotations.
Import MonadNotation.
Local Open Scope string_scope.
Local Open Scope list_scope.
Local Open Scope monad_scope.

(** ** terraform-plugin-framework/types *)

(** [types.String]: a string attribute is null, unknown, or a known value. *)
Inductive types_String : Type :=
| StringNull
| StringUnknown
| StringValue (s : string).

(** [ValueString] gives the known value, and the empty string otherwise. *)
Definition ValueString (v : types_String) : string :=
  match v with
  | StringValue s => s
  | StringNull | StringUnknown => ""
  end.

Definition IsNull (v : types_String) : bool :=
  match v with StringNull => true | _ => false end.

Definition IsUnknown (v : types_String) : bool :=
  match v with StringUnknown => true | _ => false end.

(** ** Go errors *)

Module googleapi.
(** [googleapi.Error]: the fields the provider inspects. *)
Record Error : Type := { Code : Z; Message : string }.
End googleapi.

(** An [error] value, with the text its [Error()] method prints.  An error is
    a [*googleapi.Error], wraps another error, or is neither. *)
Inductive error : Type :=
| errors_New (text : string)
| googleapi_error (text : string) (e : googleapi.Error)
| wrapped_error (text : string) (inner : error).

Definition Error (err : error) : string :=
  match err with
  | errors_New text => text
  | googleapi_error text _ => text
  | wrapped_error text _ => text
  end.

(** [errors.As(err, &googleErr)] with [googleErr : *googleapi.Error]: the
    first [*googleapi.Error] of the chain, if there is one. *)
Fixpoint errors_As (err : error) : option googleapi.Error :=
  match err with
  | errors_New _ => None
  | googleapi_error _ e => Some e
  | wrapped_error _ inner => errors_As inner
  end.

(** ** terraform-plugin-framework/diag *)

Module diag.

Inductive Severity : Type := SeverityError | SeverityWarning.

Record Diagnostic : Type :=
  { Severity_ : Severity; Summary : string; Detail : string }.

Definition Diagnostics : Type := list Diagnostic.

Definition NewErrorDiagnostic (summary detail : string) : Diagnostic :=
  {| Severity_ := SeverityError; Summary := summary; Detail := detail |}.

Definition Severity_eqb (a b : Severity) : bool :=
  match a, b with
  | SeverityError, SeverityError => true
  | SeverityWarning, SeverityWarning => true
  | _, _ => false
  end.

Definition Equal (a b : Diagnostic) : bool :=
  Severity_eqb (Severity_ a) (Severity_ b)
  && String.eqb (Summary a) (Summary b)
  && String.eqb (Detail a) (Detail b).

Definition Contains (diags : Diagnostics) (d : Diagnostic) : bool :=
  existsb (Equal d) diags.

(** [Append] skips a diagnostic that the list already contains. *)
Definition Append (diags : Diagnostics) (new : list Diagnostic) : Diagnostics :=
  fold_left (fun acc d => if Contains acc d then acc else acc ++ [d]) new diags.

Definition AddError (diags : Diagnostics) (summary detail : string) : Diagnostics :=
  Append diags [NewErrorDiagnostic summary detail].

Definition is_error (d : Diagnostic) : bool :=
  Severity_eqb (Severity_ d) SeverityError.

Definition HasError (diags : Diagnostics) : bool := existsb is_error diags.

End diag.

(** ** terraform-plugin-framework/tfsdk *)

(** A plan, state or configuration handed to a handler: [Get] decodes it into
    the handler's model and returns the diagnostics of the decoding. *)
Record tfsdk_Data (A : Type) : Type :=
  { Raw : A; GetDiags : diag.Diagnostics }.
Arguments Raw {A} _.
Arguments GetDiags {A} _.

Definition Get {A : Type} (src : tfsdk_Data A) : A * diag.Diagnostics :=
  (Raw src, GetDiags src).

(** The response a handler fills in: the state to store ([None] while no
    state has been set) and the diagnostics reported to the caller. *)
Record Response (A : Type) : Type :=
  { State : option A; Diagnostics : diag.Diagnostics }.
Arguments State {A} _.
Arguments Diagnostics {A} _.

Definition Diagnostics_Append {A} (resp : Response A) (new : diag.Diagnostics)
  : Response A :=
  {| State := State resp; Diagnostics := diag.Append (Diagnostics resp) new |}.

Definition Diagnostics_AddError {A} (resp : Response A) (summary detail : string)
  : Response A :=
  {| State := State resp;
     Diagnostics := diag.AddError (Diagnostics resp) summary detail |}.

(** [resp.State.Set(ctx, &data)]: the model has the schema's shape, so the
    state is replaced by [data] and no diagnostic is returned. *)
Definition State_Set {A} (resp : Response A) (data : A) : Response A :=
  Diagnostics_Append
    {| State := Some data; Diagnostics := Diagnostics resp |} [].

(** ** google.golang.org/api/admin/directory/v1 *)

Module admin.

(** [admin.Group], the fields the provider reads or writes.  A field the
    provider leaves out of a struct literal has Go's zero value, [""]. *)
Record Group : Type :=
  { Id : string; Email : string; Name : string; Description : string }.

(** The methods of [Groups] on a directory whose state has type [W]. *)
Record Service (W : Type) : Type :=
  { Groups_Insert : Group -> state W (Group + error);
    Groups_Get : string -> state W (Group + error);
    Groups_Update : string -> Group -> state W (Group + error);
    Groups_Patch : string -> Group -> state W (Group + error);
    Groups_Delete : string -> state W (option error) }.
Arguments Groups_Insert {W} _.
Arguments Groups_Get {W} _.
Arguments Groups_Update {W} _.
Arguments Groups_Patch {W} _.
Arguments Groups_Delete {W} _.

Definition AdminDirectoryGroupScope : string :=
  "https://www.googleapis.com/auth/admin.directory.group".
Definition AdminDirectoryUserScope : string :=
  "https://www.googleapis.com/auth/admin.directory.user".

End admin.

(** ** internal/provider/group_resource.go *)

Module GroupResourceModel.
Record t : Type :=
  { Name : types_String;
    Email : types_String;
    Description : types_String;
    Id : types_String }.
End GroupResourceModel.

Module GroupResource.
Import GroupResourceModel.

Section Handlers.
Context {W : Type}.
(** [g.adminService] *)
Variable adminService : admin.Service W.

Definition Create (req_Plan : tfsdk_Data GroupResourceModel.t)
    (resp : Response GroupResourceModel.t)
  : state W (Response GroupResourceModel.t) :=
  let (data, diags) := Get req_Plan in
  let resp := Diagnostics_Append resp diags in
  if diag.HasError (Diagnostics resp) then ret resp
  else
    let ng := {| admin.Id := "";
                 admin.Email := ValueString (Email data);
                 admin.Name := ValueString (Name data);
                 admin.Description := ValueString (Description data) |} in
    r <- admin.Groups_Insert adminService ng ;;
    match r with
    | inr err =>
        ret (Diagnostics_AddError resp
               "Error creating Google Group"
               ("Could not create group " ++ ValueString (Email data)
                  ++ ": " ++ Error err))
    | inl res =>
        let data := {| Name := StringValue (admin.Name res);
                       Email := StringValue (admin.Email res);
                       Description := StringValue (admin.Description res);
                       Id := StringValue (admin.Id res) |} in
        ret (State_Set resp data)
    end.

Definition Read (req_State : tfsdk_Data GroupResourceModel.t)
    (resp : Response GroupResourceModel.t)
  : state W (Response GroupResourceModel.t) :=
  let (data, diags) := Get req_State in
  let resp := Diagnostics_Append resp diags in
  if diag.HasError (Diagnostics resp) then ret resp
  else
    r <- admin.Groups_Get adminService (ValueString (Name data)) ;;
    match r with
    | inr err =>
        ret (Diagnostics_AddError resp
               "Client Error"
               ("Unable to read group '" ++ ValueString (Name data)
                  ++ "', got error: " ++ Error err))
    | inl ng =>
        let data := {| Name := StringValue (admin.Name ng);
                       Email := StringValue (admin.Email ng);
                       Description := StringValue (admin.Description ng);
                       Id := StringValue (admin.Id ng) |} in
        ret (State_Set resp data)
    end.

Definition Update (req_Plan : tfsdk_Data GroupResourceModel.t)
    (resp : Response GroupResourceModel.t)
  : state W (Response GroupResourceModel.t) :=
  let (data, diags) := Get req_Plan in
  let resp := Diagnostics_Append resp diags in
  if diag.HasError (Diagnostics resp) then ret resp
  else
    let gu := {| admin.Id := "";
                 admin.Email := ValueString (Email data);
                 admin.Name := ValueString (Name data);
                 admin.Description := ValueString (Description data) |} in
    r <- admin.Groups_Update adminService (ValueString (Id data)) gu ;;
    match r with
    | inr err =>
        ret (Diagnostics_AddError resp
               "Error Updating Google Group"
               ("Could not update group ID " ++ ValueString (Id data)
                  ++ ": " ++ Error err))
    | inl res =>
        let data := {| Name := StringValue (admin.Name res);
                       Email := StringValue (admin.Email res);
                       Description := StringValue (admin.Description res);
                       Id := StringValue (admin.Id res) |} in
        ret (State_Set resp data)
    end.

(** [errors.As(err, &googleErr) && googleErr.Code == 404] *)
Definition is_not_found (err : error) : bool :=
  match errors_As err with
  | Some googleErr => (googleapi.Code googleErr =? 404)%Z
  | None => false
  end.

Definition Delete (req_State : tfsdk_Data GroupResourceModel.t)
    (resp : Response GroupResourceModel.t)
  : state W (Response GroupResourceModel.t) :=
  let (data, diags) := Get req_State in
  let resp := Diagnostics_Append resp diags in
  if diag.HasError (Diagnostics resp) then ret resp
  else
    r <- admin.Groups_Delete adminService (ValueString (Id data)) ;;
    match r with
    | Some err =>
        if is_not_found err then
          (* logged as a warning, nothing is reported to Terraform *)
          ret resp
        else
          ret (Diagnostics_AddError resp
                 "Error Deleting Google Group"
                 ("Could not delete group ID " ++ ValueString (Id data)
                    ++ ": " ++ Error err))
    | None => ret resp
    end.

End Handlers.

End GroupResource.

(** ** internal/provider/group_data_source.go *)

Module GroupDataSourceModel.
Record t : Type :=
  { Name : types_String;
    Email : types_String;
    Description : types_String;
    Id : types_String }.
End GroupDataSourceModel.

Module GroupDataSource.
Import GroupDataSourceModel.

Section Handlers.
Context {W : Type}.
Variable adminService : admin.Service W.

Definition Read (req_Config : tfsdk_Data GroupDataSourceModel.t)
    (resp : Response GroupDataSourceModel.t)
  : state W (Response GroupDataSourceModel.t) :=
  let (data, diags) := Get req_Config in
  let resp := Diagnostics_Append resp diags in
  if diag.HasError (Diagnostics resp) then ret resp
  else
    r <- admin.Groups_Get adminService (ValueString (Name data)) ;;
    match r with
    | inr err =>
        ret (Diagnostics_AddError resp
               "Client Error"
               ("Unable to read group '" ++ ValueString (Name data)
                  ++ "', got error: " ++ Error err))
    | inl g =>
        let data := {| Name := StringValue (admin.Name g);
                       Email := StringValue (admin.Email g);
                       Description := StringValue (admin.Description g);
                       Id := StringValue (admin.Id g) |} in
        ret (State_Set resp data)
    end.

End Handlers.

End GroupDataSource.

(** ** google.golang.org/api/cloudidentity/v1 *)

Module cloudidentity.

(** [cloudidentity.PolicyQuery]; its [SortOrder] is not read by the
    provider. *)
Record PolicyQuery : Type :=
  { Group : string; OrgUnit : string; Query : string }.

(** [cloudidentity.Setting]; [Value] is the raw JSON message, a byte string. *)
Record Setting : Type := { Type_ : string; Value : string }.

(** [cloudidentity.Policy]; the two nested records are pointers, [None]
    when nil. *)
Record Policy : Type :=
  { Customer : string;
    Name : string;
    PolicyQuery_ : option PolicyQuery;
    Setting_ : option Setting;
    PolicyType : string }.

Record Service (W : Type) : Type :=
  { Policies_Get : string -> state W (Policy + error) }.
Arguments Policies_Get {W} _.

End cloudidentity.

(** ** The Cloud Identity policy data source *)

Module QueryModel.
Record t : Type :=
  { Group : types_String; OrgUnit : types_String; Query : types_String }.
End QueryModel.

Module SettingModel.
Record t : Type := { Type_ : types_String; Value : types_String }.
End SettingModel.

Module CloudIdentityPolicyDataSourceModel.
Record t : Type :=
  { Name : types_String;
    Customer : types_String;
    Type_ : types_String;
    Query : option QueryModel.t;
    Setting : option SettingModel.t;
    Id : types_String }.
End CloudIdentityPolicyDataSourceModel.

Module CloudIdentityPolicyDataSource.
Import CloudIdentityPolicyDataSourceModel.

Section Handlers.
Context {W : Type}.
(** [d.cloudidentityService] *)
Variable cloudidentityService : cloudidentity.Service W.

Definition Read (req_Config : tfsdk_Data CloudIdentityPolicyDataSourceModel.t)
    (resp : Response CloudIdentityPolicyDataSourceModel.t)
  : state W (Response CloudIdentityPolicyDataSourceModel.t) :=
  let (data, diags) := Get req_Config in
  let resp := Diagnostics_Append resp diags in
  if diag.HasError (Diagnostics resp) then ret resp
  else
    let policyName := ValueString (Name data) in
    r <- cloudidentity.Policies_Get cloudidentityService policyName ;;
    match r with
    | inr err =>
        ret (Diagnostics_AddError resp
               "Client Error"
               ("Unable to read Cloud Identity Policy '" ++ policyName
                  ++ "': " ++ Error err))
    | inl policy =>
        let data_Id := StringValue (cloudidentity.Name policy) in
        let data_Name := StringValue (cloudidentity.Name policy) in
        let data_Query :=
          match cloudidentity.PolicyQuery_ policy with
          | Some q =>
              Some {| QueryModel.Group := StringValue (cloudidentity.Group q);
                      QueryModel.OrgUnit := StringValue (cloudidentity.OrgUnit q);
                      QueryModel.Query := StringValue (cloudidentity.Query q) |}
          | None => None
          end in
        let data_Setting :=
          match cloudidentity.Setting_ policy with
          | Some s =>
              Some {| SettingModel.Type_ := StringValue (cloudidentity.Type_ s);
                      SettingModel.Value := StringValue (cloudidentity.Value s) |}
          | None => None
          end in
        let data := {| Name := data_Name;
                       Customer := Customer data;
                       Type_ := Type_ data;
                       Query := data_Query;
                       Setting := data_Setting;
                       Id := data_Id |} in
        ret (State_Set resp data)
    end.

End Handlers.

End CloudIdentityPolicyDataSource.

(** ** internal/provider/provider.go *)

Module jwt.
(** [jwt.Config] of golang.org/x/oauth2: what the service-account JSON
    gives, the requested scopes, and the impersonated subject. *)
Record Config : Type :=
  { Email : string;
    PrivateKey : string;
    Scopes : list string;
    Subject : string }.
End jwt.

(** The [*http.Client] that [config.Client(ctx)] builds: it signs requests
    with the configuration it was built from. *)
Inductive http_Client : Type := Config_Client (config : jwt.Config).

Module GoogleWorkspaceProviderModel.
Record t : Type :=
  { Credentials : types_String; ImpersonatedUserEmail : types_String }.
End GoogleWorkspaceProviderModel.

Module ConfigureResponse.
Record t : Type :=
  { DataSourceData : option http_Client;
    ResourceData : option http_Client;
    Diagnostics : diag.Diagnostics }.
End ConfigureResponse.

(** How a call ends: it returns to the host, or [log.Fatalf] prints a
    message and exits the process. *)
Inductive Outcome (A : Type) : Type :=
| Returns (a : A)
| Fatal (logged : string).
Arguments Returns {A} _.
Arguments Fatal {A} _.

Module GoogleWorkspaceProvider.
Import GoogleWorkspaceProviderModel.

Section Configure.
(** [os.ReadFile]: the contents of the file at a path, or an error. *)
Variable os_ReadFile : string -> string + error.
(** [google.JWTConfigFromJSON]: the parsed service account with the
    scopes, or an error. *)
Variable google_JWTConfigFromJSON : string -> list string -> jwt.Config + error.

Definition Configure (req_Config : tfsdk_Data GoogleWorkspaceProviderModel.t)
    (resp : ConfigureResponse.t) : Outcome ConfigureResponse.t :=
  let (data, diags) := Get req_Config in
  let resp :=
    {| ConfigureResponse.DataSourceData := ConfigureResponse.DataSourceData resp;
       ConfigureResponse.ResourceData := ConfigureResponse.ResourceData resp;
       ConfigureResponse.Diagnostics :=
         diag.Append (ConfigureResponse.Diagnostics resp) diags |} in
  if diag.HasError (ConfigureResponse.Diagnostics resp) then Returns resp
  else
    match os_ReadFile (ValueString (Credentials data)) with
    | inr err => Fatal ("Unable to read client secret file: " ++ Error err)
    | inl b =>
        match google_JWTConfigFromJSON b
                [admin.AdminDirectoryGroupScope; admin.AdminDirectoryUserScope] with
        | inr err =>
            Returns
              {| ConfigureResponse.DataSourceData := ConfigureResponse.DataSourceData resp;
                 ConfigureResponse.ResourceData := ConfigureResponse.ResourceData resp;
                 ConfigureResponse.Diagnostics :=
                   diag.AddError (ConfigureResponse.Diagnostics resp)
                     "Unable to parse service account JSON"
                     ("The provided credentials file is not valid JSON or missing fields: "
                        ++ Error err) |}
        | inl config =>
            if IsNull (ImpersonatedUserEmail data)
               || IsUnknown (ImpersonatedUserEmail data)
            then
              Returns
                {| ConfigureResponse.DataSourceData := ConfigureResponse.DataSourceData resp;
                   ConfigureResponse.ResourceData := ConfigureResponse.ResourceData resp;
                   ConfigureResponse.Diagnostics :=
                     diag.AddError (ConfigureResponse.Diagnostics resp)
                       "Missing Impersonated User Email"
                       "When using Domain-Wide Delegation, you must provide the email of the admin user to impersonate." |}
            else
              let config :=
                {| jwt.Email := jwt.Email config;
                   jwt.PrivateKey := jwt.PrivateKey config;
                   jwt.Scopes := jwt.Scopes config;
                   jwt.Subject := ValueString (ImpersonatedUserEmail data) |} in
              let client := Config_Client config in
              Returns
                {| ConfigureResponse.DataSourceData := Some client;
                   ConfigureResponse.ResourceData := Some client;
                   ConfigureResponse.Diagnostics := ConfigureResponse.Diagnostics resp |}
    end
    end.

End Configure.

End GoogleWorkspaceProvider.

(** ** Observing the calls a handler issues *)

Module Call.
(** One call on [Groups], with the group key of its URL and its body. *)
Inductive t : Type :=
| Insert (body : admin.Group)
| Get (groupKey : string)
| Update (groupKey : string) (body : admin.Group)
| Patch (groupKey : string) (body : admin.Group)
| Delete (groupKey : string).
End Call.

(** Any directory, wrapped so that it also records the calls it receives, in
    order.  The wrapped service answers as the directory does. *)
Definition record_call {W A : Type} (c : Call.t) (m : state W A)
  : state (W * list Call.t) A :=
  mkState (fun s =>
    let (a, w') := runState m (fst s) in
    (a, (w', snd s ++ [c]))).

Definition recording {W : Type} (srv : admin.Service W)
  : admin.Service (W * list Call.t) :=
  {| admin.Groups_Insert := fun body =>
       record_call (Call.Insert body) (admin.Groups_Insert srv body);
     admin.Groups_Get := fun key =>
       record_call (Call.Get key) (admin.Groups_Get srv key);
     admin.Groups_Update := fun key body =>
       record_call (Call.Update key body) (admin.Groups_Update srv key body);
     admin.Groups_Patch := fun key body =>
       record_call (Call.Patch key body) (admin.Groups_Patch srv key body);
     admin.Groups_Delete := fun key =>
       record_call (Call.Delete key) (admin.Groups_Delete srv key) |}.

(** The calls a handler issues when run against [recording srv] from [w]. *)
Definition issued {W A : Type} (m : state (W * list Call.t) A) (w : W)
  : list Call.t :=
  snd (snd (runState m (w, []))).

(** The group literal that [Create] and [Update] build from the plan: the
    three declared fields, and no [Id]. *)
Definition group_literal (data : GroupResourceModel.t) : admin.Group :=
  {| admin.Id := "";
     admin.Email := ValueString (GroupResourceModel.Email data);
     admin.Name := ValueString (GroupResourceModel.Name data);
     admin.Description := ValueString (GroupResourceModel.Description data) |}.

(** The record the group handlers store for a group of the response. *)
Definition model_of_group (g : admin.Group) : GroupResourceModel.t :=
  {| GroupResourceModel.Name := StringValue (admin.Name g);
     GroupResourceModel.Email := StringValue (admin.Email g);
     GroupResourceModel.Description := StringValue (admin.Description g);
     GroupResourceModel.Id := StringValue (admin.Id g) |}.

(** The nested records the policy data source stores for those of the
    response. *)
Definition model_of_query (q : cloudidentity.PolicyQuery) : QueryModel.t :=
  {| QueryModel.Group := StringValue (cloudidentity.Group q);
     QueryModel.OrgUnit := StringValue (cloudidentity.OrgUnit q);
     QueryModel.Query := StringValue (cloudidentity.Query q) |}.

Definition model_of_setting (s : cloudidentity.Setting) : SettingModel.t :=
  {| SettingModel.Type_ := StringValue (cloudidentity.Type_ s);
     SettingModel.Value := StringValue (cloudidentity.Value s) |}.

(** ** An in-memory directory

    A small directory to run the handlers against: groups are found by id or
    by email address, as the Directory API's group key is, a new group gets
    an id derived from its address, and a missing group answers 404. *)

Module InMemory.

Definition matches (key : string) (g : admin.Group) : bool :=
  String.eqb key (admin.Id g) || String.eqb key (admin.Email g).

Definition notFound (key : string) : error :=
  googleapi_error
    ("googleapi: Error 404: Resource Not Found: " ++ key ++ ", notFound")
    {| googleapi.Code := 404; googleapi.Message := "Resource Not Found: " ++ key |}.

Definition duplicate : error :=
  googleapi_error
    "googleapi: Error 409: Entity already exists., duplicate"
    {| googleapi.Code := 409; googleapi.Message := "Entity already exists." |}.

Definition insert (body : admin.Group) : state (list admin.Group) (admin.Group + error) :=
  mkState (fun w =>
    if existsb (matches (admin.Email body)) w then (inr duplicate, w)
    else
      let g := {| admin.Id := "id:" ++ admin.Email body;
                  admin.Email := admin.Email body;
                  admin.Name := admin.Name body;
                  admin.Description := admin.Description body |} in
      (inl g, w ++ [g])).

Definition get (key : string) : state (list admin.Group) (admin.Group + error) :=
  mkState (fun w =>
    match find (matches key) w with
    | Some g => (inl g, w)
    | None => (inr (notFound key), w)
    end).

Definition replace (key : string) (g' : admin.Group) (w : list admin.Group)
  : list admin.Group :=
  map (fun g => if matches key g then g' else g) w.

Definition update (key : string) (body : admin.Group)
  : state (list admin.Group) (admin.Group + error) :=
  mkState (fun w =>
    match find (matches key) w with
    | Some g =>
        let g' := {| admin.Id := admin.Id g;
                     admin.Email := admin.Email body;
                     admin.Name := admin.Name body;
                     admin.Description := admin.Description body |} in
        (inl g', replace key g' w)
    | None => (inr (notFound key), w)
    end).

Definition keep_if_empty (new old : string) : string :=
  if String.eqb new "" then old else new.

Definition patch (key : string) (body : admin.Group)
  : state (list admin.Group) (admin.Group + error) :=
  mkState (fun w =>
    match find (matches key) w with
    | Some g =>
        let g' := {| admin.Id := admin.Id g;
                     admin.Email := keep_if_empty (admin.Email body) (admin.Email g);
                     admin.Name := keep_if_empty (admin.Name body) (admin.Name g);
                     admin.Description :=
                       keep_if_empty (admin.Description body) (admin.Description g) |} in
        (inl g', replace key g' w)
    | None => (inr (notFound key), w)
    end).

Definition delete (key : string) : state (list admin.Group) (option error) :=
  mkState (fun w =>
    match find (matches key) w with
    | Some _ => (None, filter (fun g => negb (matches key g)) w)
    | None => (Some (notFound key), w)
    end).

Definition directory : admin.Service (list admin.Group) :=
  {| admin.Groups_Insert := insert;
     admin.Groups_Get := get;
     admin.Groups_Update := update;
     admin.Groups_Patch := patch;
     admin.Groups_Delete := delete |}.

(** Policies are found by their resource name. *)
Definition policy_get (name : string)
  : state (list cloudidentity.Policy) (cloudidentity.Policy + error) :=
  mkState (fun w =>
    match find (fun p => String.eqb name (cloudidentity.Name p)) w with
    | Some p => (inl p, w)
    | None => (inr (notFound name), w)
    end).

Definition policies : cloudidentity.Service (list cloudidentity.Policy) :=
  {| cloudidentity.Policies_Get := policy_get |}.

End InMemory.

(** ** Metadata, Configure and ImportState of the resource and data sources *)

(** A Go value of type [any], as far as a [Configure] inspects it: an
    [*http.Client], or a value of another type, with the name that [%T]
    prints for it. *)
Inductive any : Type :=
| any_Client (client : http_Client)
| any_other (type_name : string).

Module GroupResourceSetup.

(** The [GroupResource] struct. *)
Record GroupResource (W : Type) : Type :=
  { client : option http_Client; adminService : option (admin.Service W) }.
Arguments client {W} _.
Arguments adminService {W} _.

(** [resp.TypeName] *)
Definition Metadata (ProviderTypeName : string) : string :=
  ProviderTypeName ++ "_group".

Section Configure.
Context {W : Type}.
(** [admin.NewService(ctx, option.WithHTTPClient(client))] *)
Variable admin_NewService : http_Client -> admin.Service W + error.

Definition Configure (g : GroupResource W) (ProviderData : option any)
    (Diagnostics : diag.Diagnostics)
  : Outcome (GroupResource W * diag.Diagnostics) :=
  match ProviderData with
  | None => Returns (g, Diagnostics)
  | Some (any_other T) =>
      Returns (g, diag.AddError Diagnostics
                    "Unexpected Resource Configure Type"
                    ("Expected *http.Client, got: " ++ T
                       ++ ". Please report this issue to the provider developers."))
  | Some (any_Client c) =>
      let g := {| client := Some c; adminService := adminService g |} in
      match admin_NewService c with
      | inr err => Fatal ("Unable to retrieve directory Client " ++ Error err)
      | inl srv =>
          Returns ({| client := client g; adminService := Some srv |}, Diagnostics)
      end
  end.

End Configure.

(** [resource.ImportStatePassthroughID(ctx, path.Root("id"), req, resp)] of
    the framework: an import by ID string writes the ID to the attribute
    [id] of the response state; the attributes of a state that was empty
    are null. *)
Definition ImportStatePassthroughID_id (req_ID : string)
    (resp : Response GroupResourceModel.t) : Response GroupResourceModel.t :=
  if String.eqb req_ID "" then resp
  else
    let old :=
      match State resp with
      | Some data => data
      | None => {| GroupResourceModel.Name := StringNull;
                   GroupResourceModel.Email := StringNull;
                   GroupResourceModel.Description := StringNull;
                   GroupResourceModel.Id := StringNull |}
      end in
    Diagnostics_Append
      {| State := Some {| GroupResourceModel.Name := GroupResourceModel.Name old;
                          GroupResourceModel.Email := GroupResourceModel.Email old;
                          GroupResourceModel.Description :=
                            GroupResourceModel.Description old;
                          GroupResourceModel.Id := StringValue req_ID |};
         Diagnostics := Diagnostics resp |} [].

Definition ImportState (req_ID : string) (resp : Response GroupResourceModel.t)
  : Response GroupResourceModel.t :=
  ImportStatePassthroughID_id req_ID resp.

End GroupResourceSetup.

Module GroupDataSourceSetup.

(** The [GroupDataSource] struct. *)
Record GroupDataSource (W : Type) : Type :=
  { client : option http_Client; adminService : option (admin.Service W) }.
Arguments client {W} _.
Arguments adminService {W} _.

Definition Metadata (ProviderTypeName : string) : string :=
  ProviderTypeName ++ "_group".

Section Configure.
Context {W : Type}.
Variable admin_NewService : http_Client -> admin.Service W + error.

Definition Configure (d : GroupDataSource W) (ProviderData : option any)
    (Diagnostics : diag.Diagnostics)
  : Outcome (GroupDataSource W * diag.Diagnostics) :=
  match ProviderData with
  | None => Returns (d, Diagnostics)
  | Some (any_other T) =>
      Returns (d, diag.AddError Diagnostics
                    "Unexpected Data Source Configure Type"
                    ("Expected *http.Client, got: " ++ T
                       ++ ". Please report this issue to the provider developers."))
  | Some (any_Client c) =>
      let d := {| client := Some c; adminService := adminService d |} in
      match admin_NewService c with
      | inr err => Fatal ("Unable to retrieve directory Client " ++ Error err)
      | inl srv =>
          Returns ({| client := client d; adminService := Some srv |}, Diagnostics)
      end
  end.

End Configure.

End GroupDataSourceSetup.

Module CloudIdentityPolicyDataSourceSetup.

(** The [CloudIdentityPolicyDataSource] struct. *)
Record CloudIdentityPolicyDataSource (W : Type) : Type :=
  { client : option http_Client;
    cloudidentityService : option (cloudidentity.Service W) }.
Arguments client {W} _.
Arguments cloudidentityService {W} _.

Definition Metadata (ProviderTypeName : string) : string :=
  ProviderTypeName ++ "_cloud_identity_policy".

Section Configure.
Context {W : Type}.
(** [cloudidentity.NewService(ctx, option.WithHTTPClient(client))] *)
Variable cloudidentity_NewService : http_Client -> cloudidentity.Service W + error.

Definition Configure (d : CloudIdentityPolicyDataSource W)
    (ProviderData : option any) (Diagnostics : diag.Diagnostics)
  : Outcome (CloudIdentityPolicyDataSource W * diag.Diagnostics) :=
  match ProviderData with
  | None => Returns (d, Diagnostics)
  | Some (any_other T) =>
      Returns (d, diag.AddError Diagnostics
                    "Unexpected Data Source Configure Type"
                    ("Expected *http.Client, got: " ++ T
                       ++ ". Please report this issue to the provider developers."))
  | Some (any_Client c) =>
      let d := {| client := Some c;
                  cloudidentityService := cloudidentityService d |} in
      match cloudidentity_NewService c with
      | inr err => Fatal ("Unable to retrieve directory Client " ++ Error err)
      | inl srv =>
          Returns ({| client := client d; cloudidentityService := Some srv |},
                   Diagnostics)
      end
  end.

End Configure.

End CloudIdentityPolicyDataSourceSetup.

(** The provider hands [resp.ResourceData] and [resp.DataSourceData] to the
    [Configure] of each resource and data source as [req.ProviderData]. *)
Definition ProviderData_of (data : option http_Client) : option any :=
  option_map any_Client data.

(** ** Sample inputs *)

Module Sample.

Definition no_response {A : Type} : Response A :=
  {| State := None; Diagnostics := [] |}.

Definition decoded {A : Type} (a : A) : tfsdk_Data A :=
  {| Raw := a; GetDiags := [] |}.

(** The group of the repository's example configuration. *)
Definition plan : GroupResourceModel.t :=
  {| GroupResourceModel.Name := StringValue "Test Terraform Group";
     GroupResourceModel.Email := StringValue "test-terraform@vandebron.nl";
     GroupResourceModel.Description :=
       StringValue "A group created via Terraform for testing purposes";
     GroupResourceModel.Id := StringUnknown |}.

(** A group whose name is its address, which the directory finds by name. *)
Definition everyone : GroupResourceModel.t :=
  {| GroupResourceModel.Name := StringValue "everyone@vandebron.nl";
     GroupResourceModel.Email := StringValue "everyone@vandebron.nl";
     GroupResourceModel.Description := StringNull;
     GroupResourceModel.Id := StringUnknown |}.

(** The state of [plan] once created, and the plan of a later change of its
    description. *)
Definition stored : GroupResourceModel.t :=
  {| GroupResourceModel.Name := StringValue "Test Terraform Group";
     GroupResourceModel.Email := StringValue "test-terraform@vandebron.nl";
     GroupResourceModel.Description :=
       StringValue "A group created via Terraform for testing purposes";
     GroupResourceModel.Id := StringValue "id:test-terraform@vandebron.nl" |}.

Definition changed : GroupResourceModel.t :=
  {| GroupResourceModel.Name := StringValue "Test Terraform Group";
     GroupResourceModel.Email := StringValue "test-terraform@vandebron.nl";
     GroupResourceModel.Description := StringNull;
     GroupResourceModel.Id := StringValue "id:test-terraform@vandebron.nl" |}.

(** The directory after [plan] was created in an empty one. *)
Definition one_group : list admin.Group :=
  snd (runState (GroupResource.Create InMemory.directory (decoded plan) no_response) []).

(** A plan whose id was filled in by the client. *)
Definition forged : GroupResourceModel.t :=
  {| GroupResourceModel.Name := StringValue "everyone@vandebron.nl";
     GroupResourceModel.Email := StringValue "everyone@vandebron.nl";
     GroupResourceModel.Description := StringNull;
     GroupResourceModel.Id := StringValue "chosen-by-client" |}.

Definition everyone_group : admin.Group :=
  {| admin.Id := "id:everyone@vandebron.nl";
     admin.Email := "everyone@vandebron.nl";
     admin.Name := "everyone@vandebron.nl";
     admin.Description := "" |}.

(** The configuration of a policy data source: the two required fields. *)
Definition policy_config : CloudIdentityPolicyDataSourceModel.t :=
  {| CloudIdentityPolicyDataSourceModel.Name := StringValue "policies/abc";
     CloudIdentityPolicyDataSourceModel.Customer := StringValue "customers/C01abc";
     CloudIdentityPolicyDataSourceModel.Type_ := StringNull;
     CloudIdentityPolicyDataSourceModel.Query := None;
     CloudIdentityPolicyDataSourceModel.Setting := None;
     CloudIdentityPolicyDataSourceModel.Id := StringNull |}.

Definition org_unit_query : cloudidentity.PolicyQuery :=
  {| cloudidentity.Group := "";
     cloudidentity.OrgUnit := "orgUnits/03ph8a2z";
     cloudidentity.Query :=
       "entity.org_units.exists(org_unit, org_unit.org_unit_id == orgUnitId('03ph8a2z'))" |}.

(** A policy of another customer that carries a query and no setting. *)
Definition query_only : cloudidentity.Policy :=
  {| cloudidentity.Customer := "customers/C02xyz";
     cloudidentity.Name := "policies/abc";
     cloudidentity.PolicyQuery_ := Some org_unit_query;
     cloudidentity.Setting_ := None;
     cloudidentity.PolicyType := "ADMIN" |}.

(** A policy with both nested records. *)
Definition full_policy : cloudidentity.Policy :=
  {| cloudidentity.Customer := "customers/C01abc";
     cloudidentity.Name := "policies/abc";
     cloudidentity.PolicyQuery_ := Some org_unit_query;
     cloudidentity.Setting_ :=
       Some {| cloudidentity.Type_ := "settings/security.session_controls";
               cloudidentity.Value := "{}" |};
     cloudidentity.PolicyType := "ADMIN" |}.

(** A file system with one credentials file, whose contents are cut short,
    and a parser that rejects them. *)
Definition files (path : string) : string + error :=
  if String.eqb path "../../credentials.json" then inl "{"
  else inr (errors_New ("open " ++ path ++ ": no such file or directory")).

Definition parse (b : string) (scopes : list string) : jwt.Config + error :=
  if String.eqb b "{" then inr (errors_New "unexpected end of JSON input")
  else inl {| jwt.Email := ""; jwt.PrivateKey := b;
              jwt.Scopes := scopes; jwt.Subject := "" |}.

Definition provider_config : GoogleWorkspaceProviderModel.t :=
  {| GoogleWorkspaceProviderModel.Credentials := StringValue "../../credentials.json";
     GoogleWorkspaceProviderModel.ImpersonatedUserEmail :=
       StringValue "admin@vandebron.nl" |}.

Definition missing_file_config : GoogleWorkspaceProviderModel.t :=
  {| GoogleWorkspaceProviderModel.Credentials := StringValue "missing.json";
     GoogleWorkspaceProviderModel.ImpersonatedUserEmail :=
       StringValue "admin@vandebron.nl" |}.

Definition unconfigured : ConfigureResponse.t :=
  {| ConfigureResponse.DataSourceData := None;
     ConfigureResponse.ResourceData := None;
     ConfigureResponse.Diagnostics := [] |}.

(** A request whose decoding failed. *)
Definition conversion_error : diag.Diagnostic :=
  diag.NewErrorDiagnostic "Value Conversion Error"
    "An unexpected error was encountered trying to build a value.".

Definition undecoded {A : Type} (a : A) : tfsdk_Data A :=
  {| Raw := a; GetDiags := [conversion_error] |}.

(** A file system whose credentials file holds a key that [parse] accepts. *)
Definition key_files (path : string) : string + error :=
  if String.eqb path "../../credentials.json" then inl "service-account-key"
  else inr (errors_New ("open " ++ path ++ ": no such file or directory")).

Definition new_directory (c : http_Client)
  : admin.Service (list admin.Group) + error :=
  inl InMemory.directory.

Definition new_policies (c : http_Client)
  : cloudidentity.Service (list cloudidentity.Policy) + error :=
  inl InMemory.policies.

End Sample.

(** * Properties *)

(** ** Diagnostics *)

Lemma Severity_eqb_eq (a b : diag.Severity) :
  diag.Severity_eqb a b = true -> a = b.
Proof. destruct a, b; simpl; congruence. Qed.

Lemma Contains_is_error (ds : diag.Diagnostics) (d : diag.Diagnostic) :
  diag.Contains ds d = true -> diag.is_error d = true -> diag.HasError ds = true.
Proof.
  unfold diag.Contains, diag.HasError. intros Hc He.
  apply existsb_exists in Hc. destruct Hc as [d' [Hin Heq]].
  apply existsb_exists. exists d'. split; [exact Hin|].
  unfold diag.Equal in Heq.
  apply andb_true_iff in Heq. destruct Heq as [Heq _].
  apply andb_true_iff in Heq. destruct Heq as [Hsev _].
  apply Severity_eqb_eq in Hsev.
  unfold diag.is_error in *. rewrite <- Hsev. exact He.
Qed.

(** Appending diagnostics reports an error exactly when the old or the new
    ones hold one, whatever [Append] skips as a duplicate. *)
Lemma HasError_Append (ds new : diag.Diagnostics) :
  diag.HasError (diag.Append ds new) = diag.HasError ds || diag.HasError new.
Proof.
  unfold diag.Append. revert ds.
  induction new as [|d new IH]; intros ds; simpl.
  - now rewrite orb_false_r.
  - rewrite IH. destruct (diag.Contains ds d) eqn:Hc.
    + destruct (diag.is_error d) eqn:He; simpl; [|reflexivity].
      now rewrite (Contains_is_error ds d Hc He).
    + unfold diag.HasError at 1. rewrite existsb_app. simpl.
      fold (diag.HasError ds). now rewrite orb_false_r, orb_assoc.
Qed.

Lemma HasError_AddError (ds : diag.Diagnostics) (summary detail : string) :
  diag.HasError (diag.AddError ds summary detail) = true.
Proof.
  unfold diag.AddError. rewrite HasError_Append. simpl. apply orb_true_r.
Qed.

Lemma Append_nil (ds : diag.Diagnostics) : diag.Append ds [] = ds.
Proof. reflexivity. Qed.

(** ** What one run of each group handler does

    Past the decoding of the request, a handler issues one call and maps its
    answer.  These equations are what the contracts below are proved from. *)

(** Every handler starts alike: it decodes the request, appends the
    diagnostics, and goes on when there is no error among them. *)
Ltac past_decoding Hdec :=
  unfold Get; cbn [Diagnostics_Append Diagnostics];
  rewrite Hdec; cbn.

Section GroupRuns.
Context {W : Type}.
Variable srv : admin.Service W.
Variable req : tfsdk_Data GroupResourceModel.t.
Variable resp : Response GroupResourceModel.t.
Hypothesis decoded :
  diag.HasError (diag.Append (Diagnostics resp) (GetDiags req)) = false.

Lemma Create_run (w : W) :
  runState (GroupResource.Create srv req resp) w =
  let (r, w') := runState (admin.Groups_Insert srv (group_literal (Raw req))) w in
  match r with
  | inl res => (State_Set (Diagnostics_Append resp (GetDiags req)) (model_of_group res), w')
  | inr err =>
      (Diagnostics_AddError (Diagnostics_Append resp (GetDiags req))
         "Error creating Google Group"
         ("Could not create group "
            ++ ValueString (GroupResourceModel.Email (Raw req)) ++ ": " ++ Error err), w')
  end.
Proof.
  unfold GroupResource.Create. past_decoding decoded. fold (group_literal (Raw req)).
  destruct (runState (admin.Groups_Insert srv (group_literal (Raw req))) w) as [[res|err] w'];
    reflexivity.
Qed.

Lemma Read_run (w : W) :
  runState (GroupResource.Read srv req resp) w =
  let (r, w') :=
    runState (admin.Groups_Get srv (ValueString (GroupResourceModel.Name (Raw req)))) w in
  match r with
  | inl ng => (State_Set (Diagnostics_Append resp (GetDiags req)) (model_of_group ng), w')
  | inr err =>
      (Diagnostics_AddError (Diagnostics_Append resp (GetDiags req))
         "Client Error"
         ("Unable to read group '"
            ++ ValueString (GroupResourceModel.Name (Raw req))
            ++ "', got error: " ++ Error err), w')
  end.
Proof.
  unfold GroupResource.Read. past_decoding decoded.
  destruct (runState (admin.Groups_Get srv _) w) as [[ng|err] w']; reflexivity.
Qed.

Lemma Update_run (w : W) :
  runState (GroupResource.Update srv req resp) w =
  let (r, w') :=
    runState (admin.Groups_Update srv (ValueString (GroupResourceModel.Id (Raw req)))
                (group_literal (Raw req))) w in
  match r with
  | inl res => (State_Set (Diagnostics_Append resp (GetDiags req)) (model_of_group res), w')
  | inr err =>
      (Diagnostics_AddError (Diagnostics_Append resp (GetDiags req))
         "Error Updating Google Group"
         ("Could not update group ID "
            ++ ValueString (GroupResourceModel.Id (Raw req)) ++ ": " ++ Error err), w')
  end.
Proof.
  unfold GroupResource.Update. past_decoding decoded. fold (group_literal (Raw req)).
  destruct (runState (admin.Groups_Update srv _ _) w) as [[res|err] w']; reflexivity.
Qed.

Lemma Delete_run (w : W) :
  runState (GroupResource.Delete srv req resp) w =
  let (r, w') :=
    runState (admin.Groups_Delete srv (ValueString (GroupResourceModel.Id (Raw req)))) w in
  match r with
  | None => (Diagnostics_Append resp (GetDiags req), w')
  | Some err =>
      if GroupResource.is_not_found err
      then (Diagnostics_Append resp (GetDiags req), w')
      else
        (Diagnostics_AddError (Diagnostics_Append resp (GetDiags req))
           "Error Deleting Google Group"
           ("Could not delete group ID "
              ++ ValueString (GroupResourceModel.Id (Raw req)) ++ ": " ++ Error err), w')
  end.
Proof.
  unfold GroupResource.Delete. past_decoding decoded.
  destruct (runState (admin.Groups_Delete srv _) w) as [[err|] w']; [|reflexivity].
  destruct (GroupResource.is_not_found err); reflexivity.
Qed.

End GroupRuns.

(** Against a recording directory a call answers as the directory does, and
    is appended to the record. *)
Lemma record_call_run {W A : Type} (c : Call.t) (m : state W A) (w : W)
    (calls : list Call.t) :
  runState (record_call c m) (w, calls) =
  (fst (runState m w), (snd (runState m w), calls ++ [c])).
Proof.
  unfold record_call. cbn. destruct (runState m w); reflexivity.
Qed.

(** ** The group resource *)

(** C5: when the plan decodes and the insert call succeeds, [Create] writes
    to state the identifier the server assigned and the name, email and
    description of the server's answer, whatever the plan held, and reports
    no error. *)
Theorem Create_stores_server_record {W : Type} (srv : admin.Service W)
    (req : tfsdk_Data GroupResourceModel.t) (resp : Response GroupResourceModel.t)
    (w w' : W) (res : admin.Group) :
  diag.HasError (diag.Append (Diagnostics resp) (GetDiags req)) = false ->
  runState (admin.Groups_Insert srv (group_literal (Raw req))) w = (inl res, w') ->
  State (fst (runState (GroupResource.Create srv req resp) w)) =
    Some {| GroupResourceModel.Name := StringValue (admin.Name res);
            GroupResourceModel.Email := StringValue (admin.Email res);
            GroupResourceModel.Description := StringValue (admin.Description res);
            GroupResourceModel.Id := StringValue (admin.Id res) |}
  /\ diag.HasError (Diagnostics (fst (runState (GroupResource.Create srv req resp) w)))
     = false.
Proof.
  intros Hdec Hins. rewrite (Create_run srv req resp Hdec), Hins. cbn.
  split; [reflexivity | exact Hdec].
Qed.

Lemma Create_stores_server_record_witness :
  State (fst (runState
    (GroupResource.Create InMemory.directory (Sample.decoded Sample.plan)
       Sample.no_response) [])) = Some Sample.stored
  /\ GroupResourceModel.Id Sample.plan = StringUnknown.
Proof.
  split; [|reflexivity].
  apply (Create_stores_server_record InMemory.directory (Sample.decoded Sample.plan)
           Sample.no_response [] Sample.one_group
           {| admin.Id := "id:test-terraform@vandebron.nl";
              admin.Email := "test-terraform@vandebron.nl";
              admin.Name := "Test Terraform Group";
              admin.Description := "A group created via Terraform for testing purposes" |});
    reflexivity.
Defined.

(** C4: a delete whose API call fails reports no error exactly when the
    error is, or wraps, a [*googleapi.Error] whose code is 404; every other
    error of the call, a [*googleapi.Error] with another code or an error
    that holds none, is reported as an error diagnostic; so a second delete,
    which the API answers with a 404, reports no error either. *)
Theorem Delete_swallows_not_found {W : Type} (srv : admin.Service W)
    (req : tfsdk_Data GroupResourceModel.t) (resp : Response GroupResourceModel.t)
    (w : W) :
  diag.HasError (diag.Append (Diagnostics resp) (GetDiags req)) = false ->
  (forall err w',
      runState (admin.Groups_Delete srv (ValueString (GroupResourceModel.Id (Raw req)))) w
        = (Some err, w') ->
      diag.HasError (Diagnostics (fst (runState (GroupResource.Delete srv req resp) w)))
        = match errors_As err with
          | Some googleErr => negb (googleapi.Code googleErr =? 404)%Z
          | None => true
          end)
  /\ (forall r1 w1 err2 w2 googleErr,
      runState (admin.Groups_Delete srv (ValueString (GroupResourceModel.Id (Raw req)))) w
        = (r1, w1) ->
      runState (admin.Groups_Delete srv (ValueString (GroupResourceModel.Id (Raw req)))) w1
        = (Some err2, w2) ->
      errors_As err2 = Some googleErr ->
      googleapi.Code googleErr = 404%Z ->
      diag.HasError
        (Diagnostics
           (fst (runState (_ <- GroupResource.Delete srv req resp ;;
                           GroupResource.Delete srv req resp) w))) = false).
Proof.
  intros Hdec. split.
  - intros err w' Hdel. rewrite (Delete_run srv req resp Hdec), Hdel.
    unfold GroupResource.is_not_found.
    destruct (errors_As err) as [googleErr|]; cbn.
    + destruct (googleapi.Code googleErr =? 404)%Z; cbn.
      * exact Hdec.
      * apply HasError_AddError.
    + apply HasError_AddError.
  - intros r1 w1 err2 w2 googleErr Hdel1 Hdel2 Has Hcode.
    assert (Hnf : GroupResource.is_not_found err2 = true).
    { unfold GroupResource.is_not_found. rewrite Has, Hcode. reflexivity. }
    cbn [bind Monad_state runState fst].
    pose proof (Delete_run srv req resp Hdec w) as Hfirst. rewrite Hdel1 in Hfirst.
    assert (Hw : snd (runState (GroupResource.Delete srv req resp) w) = w1).
    { rewrite Hfirst. destruct r1 as [err1|]; [|reflexivity].
      destruct (GroupResource.is_not_found err1); reflexivity. }
    destruct (runState (GroupResource.Delete srv req resp) w) as [resp1 w1'].
    cbn in Hw. subst w1'.
    rewrite (Delete_run srv req resp Hdec), Hdel2, Hnf. exact Hdec.
Qed.

Lemma Delete_swallows_not_found_witness :
  diag.HasError (diag.Append (Diagnostics (@Sample.no_response GroupResourceModel.t))
                   (GetDiags (Sample.decoded Sample.stored))) = false
  /\ runState (GroupResource.Delete InMemory.directory (Sample.decoded Sample.stored)
                 Sample.no_response) Sample.one_group
     = (Sample.no_response, [])
  /\ diag.HasError
       (Diagnostics
          (fst (runState
                  (_ <- GroupResource.Delete InMemory.directory
                          (Sample.decoded Sample.stored) Sample.no_response ;;
                   GroupResource.Delete InMemory.directory
                     (Sample.decoded Sample.stored) Sample.no_response)
                  Sample.one_group))) = false.
Proof.
  split; [reflexivity|]. split; [reflexivity|].
  apply (proj2 (Delete_swallows_not_found InMemory.directory
                  (Sample.decoded Sample.stored) Sample.no_response
                  Sample.one_group eq_refl)
           None [] (InMemory.notFound "id:test-terraform@vandebron.nl") []
           {| googleapi.Code := 404;
              googleapi.Message :=
                "Resource Not Found: id:test-terraform@vandebron.nl" |});
    reflexivity.
Defined.

(** C6: [Update] issues one call, the whole-object [Groups.Update] (not
    [Groups.Patch]), whose body holds the three declared fields of the plan,
    a null field as the empty string; when the call succeeds the stored
    record is the server's answer to that request, and nothing of the prior
    state or of the plan remains. *)
Theorem Update_replaces_whole_record {W : Type} (srv : admin.Service W)
    (req : tfsdk_Data GroupResourceModel.t) (resp : Response GroupResourceModel.t)
    (w w' : W) (res : admin.Group) :
  diag.HasError (diag.Append (Diagnostics resp) (GetDiags req)) = false ->
  runState (admin.Groups_Update srv (ValueString (GroupResourceModel.Id (Raw req)))
              {| admin.Id := "";
                 admin.Email := ValueString (GroupResourceModel.Email (Raw req));
                 admin.Name := ValueString (GroupResourceModel.Name (Raw req));
                 admin.Description :=
                   ValueString (GroupResourceModel.Description (Raw req)) |}) w
    = (inl res, w') ->
  runState (GroupResource.Update (recording srv) req resp) (w, []) =
    ({| State := Some {| GroupResourceModel.Name := StringValue (admin.Name res);
                         GroupResourceModel.Email := StringValue (admin.Email res);
                         GroupResourceModel.Description :=
                           StringValue (admin.Description res);
                         GroupResourceModel.Id := StringValue (admin.Id res) |};
        Diagnostics := diag.Append (Diagnostics resp) (GetDiags req) |},
     (w', [Call.Update (ValueString (GroupResourceModel.Id (Raw req)))
             {| admin.Id := "";
                admin.Email := ValueString (GroupResourceModel.Email (Raw req));
                admin.Name := ValueString (GroupResourceModel.Name (Raw req));
                admin.Description :=
                  ValueString (GroupResourceModel.Description (Raw req)) |}])).
Proof.
  intros Hdec Hupd.
  rewrite (Update_run (recording srv) req resp Hdec).
  cbn [recording admin.Groups_Update]. rewrite record_call_run.
  unfold group_literal. rewrite Hupd. reflexivity.
Qed.

Lemma Update_replaces_whole_record_witness :
  GroupResourceModel.Description Sample.changed = StringNull
  /\ runState (GroupResource.Update (recording InMemory.directory)
                 (Sample.decoded Sample.changed)
                 {| State := Some Sample.stored; Diagnostics := [] |})
       (Sample.one_group, [])
     = ({| State := Some {| GroupResourceModel.Name := StringValue "Test Terraform Group";
                            GroupResourceModel.Email :=
                              StringValue "test-terraform@vandebron.nl";
                            GroupResourceModel.Description := StringValue "";
                            GroupResourceModel.Id :=
                              StringValue "id:test-terraform@vandebron.nl" |};
           Diagnostics := [] |},
        ([{| admin.Id := "id:test-terraform@vandebron.nl";
             admin.Email := "test-terraform@vandebron.nl";
             admin.Name := "Test Terraform Group";
             admin.Description := "" |}],
         [Call.Update "id:test-terraform@vandebron.nl"
            {| admin.Id := "";
               admin.Email := "test-terraform@vandebron.nl";
               admin.Name := "Test Terraform Group";
               admin.Description := "" |}])).
Proof.
  split; [reflexivity|].
  apply (Update_replaces_whole_record InMemory.directory
           (Sample.decoded Sample.changed)
           {| State := Some Sample.stored; Diagnostics := [] |}
           Sample.one_group
           [{| admin.Id := "id:test-terraform@vandebron.nl";
               admin.Email := "test-terraform@vandebron.nl";
               admin.Name := "Test Terraform Group";
               admin.Description := "" |}]
           {| admin.Id := "id:test-terraform@vandebron.nl";
              admin.Email := "test-terraform@vandebron.nl";
              admin.Name := "Test Terraform Group";
              admin.Description := "" |});
    reflexivity.
Defined.

(** C1, as the code has it: [Read] issues one call, [Groups.Get] keyed by
    the name field of the prior state; [Update] issues one call,
    [Groups.Update] keyed by the id field of the plan, and the name travels
    in the body of the request. *)
Theorem Read_keyed_by_name_Update_keyed_by_id {W : Type} (srv : admin.Service W)
    (prior plan : tfsdk_Data GroupResourceModel.t)
    (resp : Response GroupResourceModel.t) (w : W) :
  diag.HasError (diag.Append (Diagnostics resp) (GetDiags prior)) = false ->
  diag.HasError (diag.Append (Diagnostics resp) (GetDiags plan)) = false ->
  issued (GroupResource.Read (recording srv) prior resp) w
    = [Call.Get (ValueString (GroupResourceModel.Name (Raw prior)))]
  /\ (exists body,
         issued (GroupResource.Update (recording srv) plan resp) w
           = [Call.Update (ValueString (GroupResourceModel.Id (Raw plan))) body]
         /\ admin.Name body = ValueString (GroupResourceModel.Name (Raw plan))).
Proof.
  intros Hprior Hplan. unfold issued. split.
  - rewrite (Read_run (recording srv) prior resp Hprior).
    cbn [recording admin.Groups_Get]. rewrite record_call_run. cbn [fst snd].
    destruct (fst (runState (admin.Groups_Get srv _) w)); reflexivity.
  - exists (group_literal (Raw plan)). split; [|reflexivity].
    rewrite (Update_run (recording srv) plan resp Hplan).
    cbn [recording admin.Groups_Update]. rewrite record_call_run. cbn [fst snd].
    destruct (fst (runState (admin.Groups_Update srv _ _) w)); reflexivity.
Qed.

Lemma Read_keyed_by_name_Update_keyed_by_id_witness :
  issued (GroupResource.Read (recording InMemory.directory)
            (Sample.decoded Sample.stored) Sample.no_response) Sample.one_group
    = [Call.Get "Test Terraform Group"]
  /\ (exists body,
         issued (GroupResource.Update (recording InMemory.directory)
                   (Sample.decoded Sample.changed) Sample.no_response) Sample.one_group
           = [Call.Update "id:test-terraform@vandebron.nl" body]
         /\ admin.Name body = "Test Terraform Group").
Proof.
  apply (Read_keyed_by_name_Update_keyed_by_id InMemory.directory
           (Sample.decoded Sample.stored) (Sample.decoded Sample.changed)
           Sample.no_response Sample.one_group); reflexivity.
Defined.

(** C1 as stated fails for [Update]: for a group named "Test Terraform Group"
    with id "id:test-terraform@vandebron.nl", the update call is keyed by the
    id, which is not the name. *)
Lemma Update_not_keyed_by_name :
  issued (GroupResource.Update (recording InMemory.directory)
            (Sample.decoded Sample.changed) Sample.no_response) Sample.one_group
    = [Call.Update "id:test-terraform@vandebron.nl" (group_literal Sample.changed)]
  /\ ValueString (GroupResourceModel.Name Sample.changed) = "Test Terraform Group"
  /\ String.eqb "id:test-terraform@vandebron.nl"
       (ValueString (GroupResourceModel.Name Sample.changed)) = false.
Proof. repeat split. Qed.

(** C9: the request body that [Create] and [Update] build never carries an
    id, even for a plan that holds one ([Update] names the group by the key
    of its URL, not in the body), and the id of the stored record is the id
    of the API's answer; when the call fails the state is left as it was. *)
Theorem group_id_is_server_assigned {W : Type} (srv : admin.Service W)
    (req : tfsdk_Data GroupResourceModel.t) (resp : Response GroupResourceModel.t)
    (w : W) :
  diag.HasError (diag.Append (Diagnostics resp) (GetDiags req)) = false ->
  (exists body,
      issued (GroupResource.Create (recording srv) req resp) w = [Call.Insert body]
      /\ admin.Id body = "")
  /\ (exists key body,
      issued (GroupResource.Update (recording srv) req resp) w = [Call.Update key body]
      /\ admin.Id body = "")
  /\ option_map GroupResourceModel.Id
       (State (fst (runState (GroupResource.Create srv req resp) w)))
     = match fst (runState (admin.Groups_Insert srv (group_literal (Raw req))) w) with
       | inl res => Some (StringValue (admin.Id res))
       | inr _ => option_map GroupResourceModel.Id (State resp)
       end
  /\ option_map GroupResourceModel.Id
       (State (fst (runState (GroupResource.Update srv req resp) w)))
     = match fst (runState
                    (admin.Groups_Update srv
                       (ValueString (GroupResourceModel.Id (Raw req)))
                       (group_literal (Raw req))) w) with
       | inl res => Some (StringValue (admin.Id res))
       | inr _ => option_map GroupResourceModel.Id (State resp)
       end.
Proof.
  intros Hdec. unfold issued. repeat split.
  - exists (group_literal (Raw req)). split; [|reflexivity].
    rewrite (Create_run (recording srv) req resp Hdec).
    cbn [recording admin.Groups_Insert]. rewrite record_call_run. cbn [fst snd].
    destruct (fst (runState (admin.Groups_Insert srv _) w)); reflexivity.
  - exists (ValueString (GroupResourceModel.Id (Raw req))), (group_literal (Raw req)).
    split; [|reflexivity].
    rewrite (Update_run (recording srv) req resp Hdec).
    cbn [recording admin.Groups_Update]. rewrite record_call_run. cbn [fst snd].
    destruct (fst (runState (admin.Groups_Update srv _ _) w)); reflexivity.
  - rewrite (Create_run srv req resp Hdec).
    destruct (runState (admin.Groups_Insert srv _) w) as [[res|err] w']; reflexivity.
  - rewrite (Update_run srv req resp Hdec).
    destruct (runState (admin.Groups_Update srv _ _) w) as [[res|err] w']; reflexivity.
Qed.

Lemma group_id_is_server_assigned_witness :
  GroupResourceModel.Id Sample.forged = StringValue "chosen-by-client"
  /\ issued (GroupResource.Create (recording InMemory.directory)
               (Sample.decoded Sample.forged) Sample.no_response) []
     = [Call.Insert {| admin.Id := "";
                       admin.Email := "everyone@vandebron.nl";
                       admin.Name := "everyone@vandebron.nl";
                       admin.Description := "" |}]
  /\ option_map GroupResourceModel.Id
       (State (fst (runState
          (GroupResource.Create InMemory.directory (Sample.decoded Sample.forged)
             Sample.no_response) [])))
     = Some (StringValue "id:everyone@vandebron.nl").
Proof.
  split; [reflexivity|]. split; [reflexivity|].
  exact (proj1 (proj2 (proj2
           (group_id_is_server_assigned InMemory.directory
              (Sample.decoded Sample.forged) Sample.no_response [] eq_refl)))).
Defined.

(** C8: when the directory answers the read with the group it answered the
    create with, a [Read] of the state that [Create] wrote stores that same
    record again: name, email, description and id agree. *)
Theorem Read_after_Create {W : Type} (srv : admin.Service W)
    (req : tfsdk_Data GroupResourceModel.t)
    (resp resp' : Response GroupResourceModel.t)
    (w w1 w2 : W) (res : admin.Group) :
  diag.HasError (diag.Append (Diagnostics resp) (GetDiags req)) = false ->
  diag.HasError (Diagnostics resp') = false ->
  runState (admin.Groups_Insert srv (group_literal (Raw req))) w = (inl res, w1) ->
  runState (admin.Groups_Get srv (admin.Name res)) w1 = (inl res, w2) ->
  exists created,
    runState (GroupResource.Create srv req resp) w
      = ({| State := Some created;
            Diagnostics := diag.Append (Diagnostics resp) (GetDiags req) |}, w1)
    /\ State (fst (runState
                     (GroupResource.Read srv {| Raw := created; GetDiags := [] |} resp')
                     w1))
       = Some created.
Proof.
  intros Hdec Hresp' Hins Hget.
  exists (model_of_group res). split.
  - rewrite (Create_run srv req resp Hdec), Hins. reflexivity.
  - rewrite Read_run by exact Hresp'. cbn [Raw model_of_group GroupResourceModel.Name ValueString].
    rewrite Hget. reflexivity.
Qed.

Lemma Read_after_Create_witness :
  exists created,
    runState (GroupResource.Create InMemory.directory (Sample.decoded Sample.everyone)
                Sample.no_response) []
      = ({| State := Some created; Diagnostics := [] |}, [Sample.everyone_group])
    /\ State (fst (runState
                     (GroupResource.Read InMemory.directory
                        {| Raw := created; GetDiags := [] |} Sample.no_response)
                     [Sample.everyone_group]))
       = Some created.
Proof.
  apply (Read_after_Create InMemory.directory (Sample.decoded Sample.everyone)
           Sample.no_response Sample.no_response
           [] [Sample.everyone_group] [Sample.everyone_group] Sample.everyone_group);
    reflexivity.
Defined.

(** ** The data sources *)

Lemma DataSource_Read_run {W : Type} (srv : admin.Service W)
    (req : tfsdk_Data GroupDataSourceModel.t) (resp : Response GroupDataSourceModel.t)
    (w : W) :
  diag.HasError (diag.Append (Diagnostics resp) (GetDiags req)) = false ->
  runState (GroupDataSource.Read srv req resp) w =
  let (r, w') :=
    runState (admin.Groups_Get srv (ValueString (GroupDataSourceModel.Name (Raw req)))) w in
  match r with
  | inl g =>
      (State_Set (Diagnostics_Append resp (GetDiags req))
         {| GroupDataSourceModel.Name := StringValue (admin.Name g);
            GroupDataSourceModel.Email := StringValue (admin.Email g);
            GroupDataSourceModel.Description := StringValue (admin.Description g);
            GroupDataSourceModel.Id := StringValue (admin.Id g) |}, w')
  | inr err =>
      (Diagnostics_AddError (Diagnostics_Append resp (GetDiags req))
         "Client Error"
         ("Unable to read group '"
            ++ ValueString (GroupDataSourceModel.Name (Raw req))
            ++ "', got error: " ++ Error err), w')
  end.
Proof.
  intros Hdec.
  unfold GroupDataSource.Read. past_decoding Hdec.
  destruct (runState (admin.Groups_Get srv _) w) as [[g|err] w']; reflexivity.
Qed.

Lemma Policy_Read_run {W : Type} (srv : cloudidentity.Service W)
    (req : tfsdk_Data CloudIdentityPolicyDataSourceModel.t)
    (resp : Response CloudIdentityPolicyDataSourceModel.t) (w : W) :
  diag.HasError (diag.Append (Diagnostics resp) (GetDiags req)) = false ->
  runState (CloudIdentityPolicyDataSource.Read srv req resp) w =
  let (r, w') :=
    runState (cloudidentity.Policies_Get srv
                (ValueString (CloudIdentityPolicyDataSourceModel.Name (Raw req)))) w in
  match r with
  | inl policy =>
      (State_Set (Diagnostics_Append resp (GetDiags req))
         {| CloudIdentityPolicyDataSourceModel.Name :=
              StringValue (cloudidentity.Name policy);
            CloudIdentityPolicyDataSourceModel.Customer :=
              CloudIdentityPolicyDataSourceModel.Customer (Raw req);
            CloudIdentityPolicyDataSourceModel.Type_ :=
              CloudIdentityPolicyDataSourceModel.Type_ (Raw req);
            CloudIdentityPolicyDataSourceModel.Query :=
              option_map model_of_query (cloudidentity.PolicyQuery_ policy);
            CloudIdentityPolicyDataSourceModel.Setting :=
              option_map model_of_setting (cloudidentity.Setting_ policy);
            CloudIdentityPolicyDataSourceModel.Id :=
              StringValue (cloudidentity.Name policy) |}, w')
  | inr err =>
      (Diagnostics_AddError (Diagnostics_Append resp (GetDiags req))
         "Client Error"
         ("Unable to read Cloud Identity Policy '"
            ++ ValueString (CloudIdentityPolicyDataSourceModel.Name (Raw req))
            ++ "': " ++ Error err), w')
  end.
Proof.
  intros Hdec.
  unfold CloudIdentityPolicyDataSource.Read. past_decoding Hdec.
  destruct (runState (cloudidentity.Policies_Get srv _) w) as [[policy|err] w'];
    [|reflexivity].
  destruct (cloudidentity.PolicyQuery_ policy), (cloudidentity.Setting_ policy);
    reflexivity.
Qed.

(** C10: the policy record that a successful read stores has its id equal to
    its name: both are the resource name of the policy in the response. *)
Theorem Policy_Read_id_is_name {W : Type} (srv : cloudidentity.Service W)
    (req : tfsdk_Data CloudIdentityPolicyDataSourceModel.t)
    (resp : Response CloudIdentityPolicyDataSourceModel.t)
    (w w' : W) (policy : cloudidentity.Policy) :
  diag.HasError (diag.Append (Diagnostics resp) (GetDiags req)) = false ->
  runState (cloudidentity.Policies_Get srv
              (ValueString (CloudIdentityPolicyDataSourceModel.Name (Raw req)))) w
    = (inl policy, w') ->
  exists data,
    State (fst (runState (CloudIdentityPolicyDataSource.Read srv req resp) w)) = Some data
    /\ CloudIdentityPolicyDataSourceModel.Id data
       = CloudIdentityPolicyDataSourceModel.Name data
    /\ CloudIdentityPolicyDataSourceModel.Id data
       = StringValue (cloudidentity.Name policy).
Proof.
  intros Hdec Hget. rewrite (Policy_Read_run srv req resp w Hdec), Hget.
  eexists. split; [reflexivity|]. split; reflexivity.
Qed.

Lemma Policy_Read_id_is_name_witness :
  exists data,
    State (fst (runState
                  (CloudIdentityPolicyDataSource.Read InMemory.policies
                     (Sample.decoded Sample.policy_config) Sample.no_response)
                  [Sample.full_policy])) = Some data
    /\ CloudIdentityPolicyDataSourceModel.Id data
       = CloudIdentityPolicyDataSourceModel.Name data
    /\ CloudIdentityPolicyDataSourceModel.Id data = StringValue "policies/abc".
Proof.
  apply (Policy_Read_id_is_name InMemory.policies
           (Sample.decoded Sample.policy_config) Sample.no_response
           [Sample.full_policy] [Sample.full_policy] Sample.full_policy);
    reflexivity.
Defined.

(** C2, as the code has it: in the record of a successful policy read the
    query is present exactly when the response carries a policy query, and
    the setting exactly when the response carries a setting; each mirrors the
    response on its own, so the two are both present or both absent whenever
    they are so in the response. *)
Theorem Policy_Read_nested_mirror_response {W : Type}
    (srv : cloudidentity.Service W)
    (req : tfsdk_Data CloudIdentityPolicyDataSourceModel.t)
    (resp : Response CloudIdentityPolicyDataSourceModel.t)
    (w w' : W) (policy : cloudidentity.Policy) :
  diag.HasError (diag.Append (Diagnostics resp) (GetDiags req)) = false ->
  runState (cloudidentity.Policies_Get srv
              (ValueString (CloudIdentityPolicyDataSourceModel.Name (Raw req)))) w
    = (inl policy, w') ->
  exists data,
    State (fst (runState (CloudIdentityPolicyDataSource.Read srv req resp) w)) = Some data
    /\ (CloudIdentityPolicyDataSourceModel.Query data = None
        <-> cloudidentity.PolicyQuery_ policy = None)
    /\ (CloudIdentityPolicyDataSourceModel.Setting data = None
        <-> cloudidentity.Setting_ policy = None)
    /\ ((cloudidentity.PolicyQuery_ policy = None
         <-> cloudidentity.Setting_ policy = None) ->
        (CloudIdentityPolicyDataSourceModel.Query data = None
         <-> CloudIdentityPolicyDataSourceModel.Setting data = None)).
Proof.
  intros Hdec Hget. rewrite (Policy_Read_run srv req resp w Hdec), Hget.
  eexists. split; [reflexivity|]. cbn.
  destruct (cloudidentity.PolicyQuery_ policy), (cloudidentity.Setting_ policy);
    cbn; intuition congruence.
Qed.

Lemma Policy_Read_nested_mirror_response_witness :
  exists data,
    State (fst (runState
                  (CloudIdentityPolicyDataSource.Read InMemory.policies
                     (Sample.decoded Sample.policy_config) Sample.no_response)
                  [Sample.full_policy])) = Some data
    /\ (CloudIdentityPolicyDataSourceModel.Query data = None
        <-> cloudidentity.PolicyQuery_ Sample.full_policy = None)
    /\ (CloudIdentityPolicyDataSourceModel.Setting data = None
        <-> cloudidentity.Setting_ Sample.full_policy = None)
    /\ ((cloudidentity.PolicyQuery_ Sample.full_policy = None
         <-> cloudidentity.Setting_ Sample.full_policy = None) ->
        (CloudIdentityPolicyDataSourceModel.Query data = None
         <-> CloudIdentityPolicyDataSourceModel.Setting data = None)).
Proof.
  apply (Policy_Read_nested_mirror_response InMemory.policies
           (Sample.decoded Sample.policy_config) Sample.no_response
           [Sample.full_policy] [Sample.full_policy] Sample.full_policy);
    reflexivity.
Defined.

(** C2 as stated fails: for a response that carries a policy query and no
    setting, the read succeeds and stores a record with the query present
    and the setting absent. *)
Lemma Policy_Read_query_without_setting :
  runState (CloudIdentityPolicyDataSource.Read InMemory.policies
              (Sample.decoded Sample.policy_config) Sample.no_response)
    [Sample.query_only]
  = ({| State :=
          Some {| CloudIdentityPolicyDataSourceModel.Name := StringValue "policies/abc";
                  CloudIdentityPolicyDataSourceModel.Customer :=
                    StringValue "customers/C01abc";
                  CloudIdentityPolicyDataSourceModel.Type_ := StringNull;
                  CloudIdentityPolicyDataSourceModel.Query :=
                    Some (model_of_query Sample.org_unit_query);
                  CloudIdentityPolicyDataSourceModel.Setting := None;
                  CloudIdentityPolicyDataSourceModel.Id := StringValue "policies/abc" |};
        Diagnostics := [] |},
     [Sample.query_only]).
Proof. reflexivity. Qed.

(** C3, as the code has it: a successful read of a group, by the resource
    or by the data source, stores name, email, description and id of the
    response, whatever the request held; a successful read of a policy
    stores id and name (the resource name of the response), query and
    setting of the response, and keeps the customer of its configuration. *)
Theorem Read_refreshes_from_response {W V : Type}
    (srv : admin.Service W) (policies : cloudidentity.Service V)
    (prior : tfsdk_Data GroupResourceModel.t) (resp : Response GroupResourceModel.t)
    (config : tfsdk_Data GroupDataSourceModel.t) (dresp : Response GroupDataSourceModel.t)
    (pconfig : tfsdk_Data CloudIdentityPolicyDataSourceModel.t)
    (presp : Response CloudIdentityPolicyDataSourceModel.t)
    (w w1 w2 : W) (v v' : V) (ng g : admin.Group) (policy : cloudidentity.Policy) :
  diag.HasError (diag.Append (Diagnostics resp) (GetDiags prior)) = false ->
  diag.HasError (diag.Append (Diagnostics dresp) (GetDiags config)) = false ->
  diag.HasError (diag.Append (Diagnostics presp) (GetDiags pconfig)) = false ->
  runState (admin.Groups_Get srv (ValueString (GroupResourceModel.Name (Raw prior)))) w
    = (inl ng, w1) ->
  runState (admin.Groups_Get srv (ValueString (GroupDataSourceModel.Name (Raw config)))) w
    = (inl g, w2) ->
  runState (cloudidentity.Policies_Get policies
              (ValueString (CloudIdentityPolicyDataSourceModel.Name (Raw pconfig)))) v
    = (inl policy, v') ->
  State (fst (runState (GroupResource.Read srv prior resp) w))
    = Some {| GroupResourceModel.Name := StringValue (admin.Name ng);
              GroupResourceModel.Email := StringValue (admin.Email ng);
              GroupResourceModel.Description := StringValue (admin.Description ng);
              GroupResourceModel.Id := StringValue (admin.Id ng) |}
  /\ State (fst (runState (GroupDataSource.Read srv config dresp) w))
    = Some {| GroupDataSourceModel.Name := StringValue (admin.Name g);
              GroupDataSourceModel.Email := StringValue (admin.Email g);
              GroupDataSourceModel.Description := StringValue (admin.Description g);
              GroupDataSourceModel.Id := StringValue (admin.Id g) |}
  /\ exists data,
      State (fst (runState (CloudIdentityPolicyDataSource.Read policies pconfig presp) v))
        = Some data
      /\ CloudIdentityPolicyDataSourceModel.Id data
         = StringValue (cloudidentity.Name policy)
      /\ CloudIdentityPolicyDataSourceModel.Name data
         = StringValue (cloudidentity.Name policy)
      /\ CloudIdentityPolicyDataSourceModel.Query data
         = option_map model_of_query (cloudidentity.PolicyQuery_ policy)
      /\ CloudIdentityPolicyDataSourceModel.Setting data
         = option_map model_of_setting (cloudidentity.Setting_ policy)
      /\ CloudIdentityPolicyDataSourceModel.Customer data
         = CloudIdentityPolicyDataSourceModel.Customer (Raw pconfig).
Proof.
  intros Hprior Hconfig Hpconfig Hng Hg Hpolicy. split; [|split].
  - rewrite (Read_run srv prior resp Hprior), Hng. reflexivity.
  - rewrite (DataSource_Read_run srv config dresp w Hconfig), Hg. reflexivity.
  - rewrite (Policy_Read_run policies pconfig presp v Hpconfig), Hpolicy.
    eexists. split; [reflexivity|]. cbn. repeat split.
Qed.

Lemma Read_refreshes_from_response_witness :
  State (fst (runState
                (GroupResource.Read InMemory.directory
                   (Sample.decoded Sample.forged) Sample.no_response)
                [Sample.everyone_group]))
    = Some {| GroupResourceModel.Name := StringValue "everyone@vandebron.nl";
              GroupResourceModel.Email := StringValue "everyone@vandebron.nl";
              GroupResourceModel.Description := StringValue "";
              GroupResourceModel.Id := StringValue "id:everyone@vandebron.nl" |}
  /\ State (fst (runState
                (GroupDataSource.Read InMemory.directory
                   (Sample.decoded
                      {| GroupDataSourceModel.Name := StringValue "everyone@vandebron.nl";
                         GroupDataSourceModel.Email := StringNull;
                         GroupDataSourceModel.Description := StringNull;
                         GroupDataSourceModel.Id := StringNull |})
                   Sample.no_response)
                [Sample.everyone_group]))
    = Some {| GroupDataSourceModel.Name := StringValue "everyone@vandebron.nl";
              GroupDataSourceModel.Email := StringValue "everyone@vandebron.nl";
              GroupDataSourceModel.Description := StringValue "";
              GroupDataSourceModel.Id := StringValue "id:everyone@vandebron.nl" |}
  /\ exists data,
      State (fst (runState
                    (CloudIdentityPolicyDataSource.Read InMemory.policies
                       (Sample.decoded Sample.policy_config) Sample.no_response)
                    [Sample.full_policy]))
        = Some data
      /\ CloudIdentityPolicyDataSourceModel.Id data = StringValue "policies/abc"
      /\ CloudIdentityPolicyDataSourceModel.Name data = StringValue "policies/abc"
      /\ CloudIdentityPolicyDataSourceModel.Query data
         = Some (model_of_query Sample.org_unit_query)
      /\ CloudIdentityPolicyDataSourceModel.Setting data
         = option_map model_of_setting (cloudidentity.Setting_ Sample.full_policy)
      /\ CloudIdentityPolicyDataSourceModel.Customer data
         = StringValue "customers/C01abc".
Proof.
  apply (Read_refreshes_from_response InMemory.directory InMemory.policies
           (Sample.decoded Sample.forged) Sample.no_response
           (Sample.decoded
              {| GroupDataSourceModel.Name := StringValue "everyone@vandebron.nl";
                 GroupDataSourceModel.Email := StringNull;
                 GroupDataSourceModel.Description := StringNull;
                 GroupDataSourceModel.Id := StringNull |})
           Sample.no_response
           (Sample.decoded Sample.policy_config) Sample.no_response
           [Sample.everyone_group] [Sample.everyone_group] [Sample.everyone_group]
           [Sample.full_policy] [Sample.full_policy]
           Sample.everyone_group Sample.everyone_group Sample.full_policy);
    reflexivity.
Defined.

(** C3 as stated fails for the policy record: the configuration names
    customer "customers/C01abc", the response says "customers/C02xyz"; after
    the read the stored customer is still the one of the configuration, not
    the one of the response. *)
Lemma Policy_Read_keeps_configured_customer :
  option_map CloudIdentityPolicyDataSourceModel.Customer
    (State (fst (runState
                   (CloudIdentityPolicyDataSource.Read InMemory.policies
                      (Sample.decoded Sample.policy_config) Sample.no_response)
                   [Sample.query_only])))
    = Some (StringValue "customers/C01abc")
  /\ cloudidentity.Customer Sample.query_only = "customers/C02xyz"
  /\ String.eqb "customers/C01abc" (cloudidentity.Customer Sample.query_only) = false.
Proof. repeat split. Qed.

(** ** The provider *)

(** C7, as the code has it: when the credentials file cannot be read,
    [Configure] ends the process through [log.Fatalf]; when the file is read
    and its contents do not parse as a service account, [Configure] returns
    to the host with an error diagnostic and leaves the client data unset. *)
Theorem Configure_credential_failures
    (os_ReadFile : string -> string + error)
    (google_JWTConfigFromJSON : string -> list string -> jwt.Config + error)
    (req unread : tfsdk_Data GoogleWorkspaceProviderModel.t)
    (resp : ConfigureResponse.t) (b : string) (err err' : error) :
  diag.HasError (diag.Append (ConfigureResponse.Diagnostics resp) (GetDiags unread))
    = false ->
  diag.HasError (diag.Append (ConfigureResponse.Diagnostics resp) (GetDiags req))
    = false ->
  os_ReadFile (ValueString (GoogleWorkspaceProviderModel.Credentials (Raw unread)))
    = inr err' ->
  os_ReadFile (ValueString (GoogleWorkspaceProviderModel.Credentials (Raw req)))
    = inl b ->
  google_JWTConfigFromJSON b
    [admin.AdminDirectoryGroupScope; admin.AdminDirectoryUserScope] = inr err ->
  GoogleWorkspaceProvider.Configure os_ReadFile google_JWTConfigFromJSON unread resp
    = Fatal ("Unable to read client secret file: " ++ Error err')
  /\ exists resp',
      GoogleWorkspaceProvider.Configure os_ReadFile google_JWTConfigFromJSON req resp
        = Returns resp'
      /\ diag.HasError (ConfigureResponse.Diagnostics resp') = true
      /\ ConfigureResponse.DataSourceData resp' = ConfigureResponse.DataSourceData resp
      /\ ConfigureResponse.ResourceData resp' = ConfigureResponse.ResourceData resp.
Proof.
  intros Hunread Hreq Hmissing Hfile Hparse. split.
  - unfold GoogleWorkspaceProvider.Configure, Get.
    cbn [ConfigureResponse.Diagnostics]. rewrite Hunread, Hmissing. reflexivity.
  - unfold GoogleWorkspaceProvider.Configure, Get.
    cbn [ConfigureResponse.Diagnostics]. rewrite Hreq, Hfile, Hparse.
    eexists. split; [reflexivity|]. cbn [ConfigureResponse.Diagnostics
      ConfigureResponse.DataSourceData ConfigureResponse.ResourceData].
    split; [apply HasError_AddError|]. split; reflexivity.
Qed.

Lemma Configure_credential_failures_witness :
  GoogleWorkspaceProvider.Configure Sample.files Sample.parse
    (Sample.decoded Sample.missing_file_config) Sample.unconfigured
    = Fatal "Unable to read client secret file: open missing.json: no such file or directory"
  /\ exists resp',
      GoogleWorkspaceProvider.Configure Sample.files Sample.parse
        (Sample.decoded Sample.provider_config) Sample.unconfigured
        = Returns resp'
      /\ diag.HasError (ConfigureResponse.Diagnostics resp') = true
      /\ ConfigureResponse.DataSourceData resp' = None
      /\ ConfigureResponse.ResourceData resp' = None.
Proof.
  apply (Configure_credential_failures Sample.files Sample.parse
           (Sample.decoded Sample.provider_config)
           (Sample.decoded Sample.missing_file_config)
           Sample.unconfigured "{"
           (errors_New "unexpected end of JSON input")
           (errors_New "open missing.json: no such file or directory"));
    reflexivity.
Defined.

(** C7 as stated fails for contents that do not parse: the credentials file
    is read, the parser rejects it, and [Configure] returns to the host with
    one error diagnostic instead of ending the process. *)
Lemma Configure_parse_failure_returns :
  Sample.files "../../credentials.json" = inl "{"
  /\ GoogleWorkspaceProvider.Configure Sample.files Sample.parse
       (Sample.decoded Sample.provider_config) Sample.unconfigured
     = Returns
         {| ConfigureResponse.DataSourceData := None;
            ConfigureResponse.ResourceData := None;
            ConfigureResponse.Diagnostics :=
              [diag.NewErrorDiagnostic
                 "Unable to parse service account JSON"
                 "The provided credentials file is not valid JSON or missing fields: unexpected end of JSON input"] |}.
Proof. split; reflexivity. Qed.

(** * Further properties of the handlers *)

(** ** A request that does not decode *)

(** X1: when the diagnostics hold an error once the request is decoded, the
    four handlers of the group resource stop there: no call reaches the
    directory, the directory and the state of the response are as they
    were, and the response holds the diagnostics of the decoding. *)
Theorem GroupResource_stops_on_decode_error {W : Type} (srv : admin.Service W)
    (req : tfsdk_Data GroupResourceModel.t) (resp : Response GroupResourceModel.t)
    (w : W) (calls : list Call.t) :
  diag.HasError (diag.Append (Diagnostics resp) (GetDiags req)) = true ->
  let stopped :=
    ({| State := State resp;
        Diagnostics := diag.Append (Diagnostics resp) (GetDiags req) |}, (w, calls)) in
  runState (GroupResource.Create (recording srv) req resp) (w, calls) = stopped
  /\ runState (GroupResource.Read (recording srv) req resp) (w, calls) = stopped
  /\ runState (GroupResource.Update (recording srv) req resp) (w, calls) = stopped
  /\ runState (GroupResource.Delete (recording srv) req resp) (w, calls) = stopped.
Proof.
  intros Herr stopped. subst stopped.
  unfold GroupResource.Create, GroupResource.Read, GroupResource.Update,
    GroupResource.Delete, Get.
  cbn [Diagnostics_Append Diagnostics]. rewrite Herr. repeat split.
Qed.

Lemma GroupResource_stops_on_decode_error_witness :
  runState (GroupResource.Delete (recording InMemory.directory)
              (Sample.undecoded Sample.stored)
              {| State := Some Sample.stored; Diagnostics := [] |})
    (Sample.one_group, [])
  = ({| State := Some Sample.stored; Diagnostics := [Sample.conversion_error] |},
     (Sample.one_group, [])).
Proof.
  apply (GroupResource_stops_on_decode_error InMemory.directory
           (Sample.undecoded Sample.stored)
           {| State := Some Sample.stored; Diagnostics := [] |}
           Sample.one_group [] eq_refl).
Defined.

(** X2: the two data sources stop in the same way: with an error among the
    diagnostics after decoding, [Read] returns the response with those
    diagnostics and its state untouched, whatever the service is, and leaves
    the service as it was. *)
Theorem DataSources_stop_on_decode_error {W V : Type}
    (srv : admin.Service W) (policies : cloudidentity.Service V)
    (config : tfsdk_Data GroupDataSourceModel.t) (resp : Response GroupDataSourceModel.t)
    (pconfig : tfsdk_Data CloudIdentityPolicyDataSourceModel.t)
    (presp : Response CloudIdentityPolicyDataSourceModel.t)
    (w : W) (calls : list Call.t) (v : V) :
  diag.HasError (diag.Append (Diagnostics resp) (GetDiags config)) = true ->
  diag.HasError (diag.Append (Diagnostics presp) (GetDiags pconfig)) = true ->
  runState (GroupDataSource.Read (recording srv) config resp) (w, calls)
    = ({| State := State resp;
          Diagnostics := diag.Append (Diagnostics resp) (GetDiags config) |}, (w, calls))
  /\ runState (CloudIdentityPolicyDataSource.Read policies pconfig presp) v
    = ({| State := State presp;
          Diagnostics := diag.Append (Diagnostics presp) (GetDiags pconfig) |}, v).
Proof.
  intros Herr Hperr.
  unfold GroupDataSource.Read, CloudIdentityPolicyDataSource.Read, Get.
  cbn [Diagnostics_Append Diagnostics]. rewrite Herr, Hperr. split; reflexivity.
Qed.

Lemma DataSources_stop_on_decode_error_witness :
  runState (GroupDataSource.Read (recording InMemory.directory)
              (Sample.undecoded
                 {| GroupDataSourceModel.Name := StringValue "everyone@vandebron.nl";
                    GroupDataSourceModel.Email := StringNull;
                    GroupDataSourceModel.Description := StringNull;
                    GroupDataSourceModel.Id := StringNull |})
              Sample.no_response) ([Sample.everyone_group], [])
    = ({| State := None; Diagnostics := [Sample.conversion_error] |},
       ([Sample.everyone_group], []))
  /\ runState (CloudIdentityPolicyDataSource.Read InMemory.policies
                 (Sample.undecoded Sample.policy_config) Sample.no_response)
       [Sample.full_policy]
    = ({| State := None; Diagnostics := [Sample.conversion_error] |},
       [Sample.full_policy]).
Proof.
  apply (DataSources_stop_on_decode_error InMemory.directory InMemory.policies
           (Sample.undecoded
              {| GroupDataSourceModel.Name := StringValue "everyone@vandebron.nl";
                 GroupDataSourceModel.Email := StringNull;
                 GroupDataSourceModel.Description := StringNull;
                 GroupDataSourceModel.Id := StringNull |})
           Sample.no_response
           (Sample.undecoded Sample.policy_config) Sample.no_response
           [Sample.everyone_group] [] [Sample.full_policy] eq_refl eq_refl).
Defined.

(** ** A call that fails *)

(** X3: past the decoding, [Create], [Read] and [Update] of the group
    resource report an error exactly when their API call fails, and then
    leave the state as it was; in particular a read of a group that the
    directory no longer finds is an error, and does not drop the group from
    the state. *)
Theorem GroupResource_error_iff_call_fails {W : Type} (srv : admin.Service W)
    (req : tfsdk_Data GroupResourceModel.t) (resp : Response GroupResourceModel.t)
    (w : W) :
  diag.HasError (diag.Append (Diagnostics resp) (GetDiags req)) = false ->
  let outcome (r : admin.Group + error) (out : Response GroupResourceModel.t) :=
    match r with
    | inl res => diag.HasError (Diagnostics out) = false
                 /\ State out = Some (model_of_group res)
    | inr _ => diag.HasError (Diagnostics out) = true /\ State out = State resp
    end in
  outcome (fst (runState (admin.Groups_Insert srv (group_literal (Raw req))) w))
          (fst (runState (GroupResource.Create srv req resp) w))
  /\ outcome (fst (runState
                     (admin.Groups_Get srv
                        (ValueString (GroupResourceModel.Name (Raw req)))) w))
             (fst (runState (GroupResource.Read srv req resp) w))
  /\ outcome (fst (runState
                     (admin.Groups_Update srv
                        (ValueString (GroupResourceModel.Id (Raw req)))
                        (group_literal (Raw req))) w))
             (fst (runState (GroupResource.Update srv req resp) w)).
Proof.
  intros Hdec outcome. subst outcome. cbv beta.
  rewrite (Create_run srv req resp Hdec), (Read_run srv req resp Hdec),
    (Update_run srv req resp Hdec).
  destruct (runState (admin.Groups_Insert srv _) w) as [[r1|e1] w1];
  destruct (runState (admin.Groups_Get srv _) w) as [[r2|e2] w2];
  destruct (runState (admin.Groups_Update srv _ _) w) as [[r3|e3] w3];
    cbn; repeat split; try exact Hdec; apply HasError_AddError.
Qed.

Lemma GroupResource_error_iff_call_fails_witness :
  (diag.HasError
     (Diagnostics
        (fst (runState
                (GroupResource.Read InMemory.directory (Sample.decoded Sample.stored)
                   {| State := Some Sample.stored; Diagnostics := [] |})
                Sample.one_group))) = true
   /\ State
        (fst (runState
                (GroupResource.Read InMemory.directory (Sample.decoded Sample.stored)
                   {| State := Some Sample.stored; Diagnostics := [] |})
                Sample.one_group)) = Some Sample.stored)
  /\ fst (runState (InMemory.get "Test Terraform Group") Sample.one_group)
     = inr (InMemory.notFound "Test Terraform Group").
Proof.
  split; [|reflexivity].
  exact (proj1 (proj2
           (GroupResource_error_iff_call_fails InMemory.directory
              (Sample.decoded Sample.stored)
              {| State := Some Sample.stored; Diagnostics := [] |}
              Sample.one_group eq_refl))).
Defined.

(** X4: past the decoding, the read of each data source reports an error
    exactly when its API call fails, and then leaves the state as it was. *)
Theorem DataSources_error_iff_call_fails {W V : Type}
    (srv : admin.Service W) (policies : cloudidentity.Service V)
    (config : tfsdk_Data GroupDataSourceModel.t) (resp : Response GroupDataSourceModel.t)
    (pconfig : tfsdk_Data CloudIdentityPolicyDataSourceModel.t)
    (presp : Response CloudIdentityPolicyDataSourceModel.t)
    (w : W) (v : V) :
  diag.HasError (diag.Append (Diagnostics resp) (GetDiags config)) = false ->
  diag.HasError (diag.Append (Diagnostics presp) (GetDiags pconfig)) = false ->
  match fst (runState
               (admin.Groups_Get srv
                  (ValueString (GroupDataSourceModel.Name (Raw config)))) w) with
  | inl _ =>
      diag.HasError
        (Diagnostics (fst (runState (GroupDataSource.Read srv config resp) w))) = false
      /\ State (fst (runState (GroupDataSource.Read srv config resp) w)) <> None
  | inr _ =>
      diag.HasError
        (Diagnostics (fst (runState (GroupDataSource.Read srv config resp) w))) = true
      /\ State (fst (runState (GroupDataSource.Read srv config resp) w)) = State resp
  end
  /\ match fst (runState
                  (cloudidentity.Policies_Get policies
                     (ValueString (CloudIdentityPolicyDataSourceModel.Name (Raw pconfig))))
                  v) with
     | inl _ =>
         diag.HasError
           (Diagnostics
              (fst (runState (CloudIdentityPolicyDataSource.Read policies pconfig presp) v)))
           = false
         /\ State (fst (runState
                          (CloudIdentityPolicyDataSource.Read policies pconfig presp) v))
            <> None
     | inr _ =>
         diag.HasError
           (Diagnostics
              (fst (runState (CloudIdentityPolicyDataSource.Read policies pconfig presp) v)))
           = true
         /\ State (fst (runState
                          (CloudIdentityPolicyDataSource.Read policies pconfig presp) v))
            = State presp
     end.
Proof.
  intros Hdec Hpdec.
  rewrite (DataSource_Read_run srv config resp w Hdec),
    (Policy_Read_run policies pconfig presp v Hpdec).
  destruct (runState (admin.Groups_Get srv _) w) as [[g|e] w'];
  destruct (runState (cloudidentity.Policies_Get policies _) v) as [[p|e'] v'];
    cbn; repeat split; try exact Hdec; try exact Hpdec;
    try apply HasError_AddError; discriminate.
Qed.

Lemma DataSources_error_iff_call_fails_witness :
  (diag.HasError
     (Diagnostics
        (fst (runState
                (GroupDataSource.Read InMemory.directory
                   (Sample.decoded
                      {| GroupDataSourceModel.Name := StringValue "Test Terraform Group";
                         GroupDataSourceModel.Email := StringNull;
                         GroupDataSourceModel.Description := StringNull;
                         GroupDataSourceModel.Id := StringNull |})
                   Sample.no_response) Sample.one_group))) = true
   /\ State
        (fst (runState
                (GroupDataSource.Read InMemory.directory
                   (Sample.decoded
                      {| GroupDataSourceModel.Name := StringValue "Test Terraform Group";
                         GroupDataSourceModel.Email := StringNull;
                         GroupDataSourceModel.Description := StringNull;
                         GroupDataSourceModel.Id := StringNull |})
                   Sample.no_response) Sample.one_group)) = None)
  /\ (diag.HasError
        (Diagnostics
           (fst (runState
                   (CloudIdentityPolicyDataSource.Read InMemory.policies
                      (Sample.decoded Sample.policy_config) Sample.no_response) [])))
      = true
      /\ State
           (fst (runState
                   (CloudIdentityPolicyDataSource.Read InMemory.policies
                      (Sample.decoded Sample.policy_config) Sample.no_response) []))
         = None).
Proof.
  exact (DataSources_error_iff_call_fails InMemory.directory InMemory.policies
           (Sample.decoded
              {| GroupDataSourceModel.Name := StringValue "Test Terraform Group";
                 GroupDataSourceModel.Email := StringNull;
                 GroupDataSourceModel.Description := StringNull;
                 GroupDataSourceModel.Id := StringNull |})
           Sample.no_response
           (Sample.decoded Sample.policy_config) Sample.no_response
           Sample.one_group [] eq_refl eq_refl).
Defined.

(** ** Delete *)

(** X5: past the decoding, [Delete] issues one call, [Groups.Delete] keyed
    by the id of the prior state, whatever the directory answers, leaves the
    directory as that call left it, and never touches the state of the
    response: removing the state is left to the framework. *)
Theorem Delete_one_call_keyed_by_id {W : Type} (srv : admin.Service W)
    (req : tfsdk_Data GroupResourceModel.t) (resp : Response GroupResourceModel.t)
    (w : W) :
  diag.HasError (diag.Append (Diagnostics resp) (GetDiags req)) = false ->
  snd (runState (GroupResource.Delete (recording srv) req resp) (w, []))
    = (snd (runState
              (admin.Groups_Delete srv (ValueString (GroupResourceModel.Id (Raw req)))) w),
       [Call.Delete (ValueString (GroupResourceModel.Id (Raw req)))])
  /\ State (fst (runState (GroupResource.Delete (recording srv) req resp) (w, [])))
     = State resp.
Proof.
  intros Hdec. rewrite (Delete_run (recording srv) req resp Hdec).
  cbn [recording admin.Groups_Delete]. rewrite record_call_run.
  destruct (runState (admin.Groups_Delete srv _) w) as [[err|] w']; cbn [fst snd].
  - destruct (GroupResource.is_not_found err); split; reflexivity.
  - split; reflexivity.
Qed.

Lemma Delete_one_call_keyed_by_id_witness :
  snd (runState (GroupResource.Delete (recording InMemory.directory)
                   (Sample.decoded Sample.stored)
                   {| State := Some Sample.stored; Diagnostics := [] |})
         (Sample.one_group, []))
    = ([], [Call.Delete "id:test-terraform@vandebron.nl"])
  /\ State (fst (runState (GroupResource.Delete (recording InMemory.directory)
                            (Sample.decoded Sample.stored)
                            {| State := Some Sample.stored; Diagnostics := [] |})
                  (Sample.one_group, [])))
     = Some Sample.stored.
Proof.
  exact (Delete_one_call_keyed_by_id InMemory.directory
           (Sample.decoded Sample.stored)
           {| State := Some Sample.stored; Diagnostics := [] |}
           Sample.one_group eq_refl).
Defined.

(** ** How the handlers compose *)

(** X6: the record that a successful [Create] stores decides the keys of the
    calls that follow: a [Read] of it is keyed by the name the server
    echoed, a [Delete] of it by the id the server assigned, and an [Update]
    planned from it is keyed by that id and sends the echoed email, name and
    description back. *)
Theorem calls_after_Create {W : Type} (srv : admin.Service W)
    (req : tfsdk_Data GroupResourceModel.t)
    (resp resp' : Response GroupResourceModel.t)
    (w w1 w2 : W) (res : admin.Group) :
  diag.HasError (diag.Append (Diagnostics resp) (GetDiags req)) = false ->
  diag.HasError (Diagnostics resp') = false ->
  runState (admin.Groups_Insert srv (group_literal (Raw req))) w = (inl res, w1) ->
  exists created,
    State (fst (runState (GroupResource.Create srv req resp) w)) = Some created
    /\ issued (GroupResource.Read (recording srv)
                 {| Raw := created; GetDiags := [] |} resp') w2
       = [Call.Get (admin.Name res)]
    /\ issued (GroupResource.Delete (recording srv)
                 {| Raw := created; GetDiags := [] |} resp') w2
       = [Call.Delete (admin.Id res)]
    /\ issued (GroupResource.Update (recording srv)
                 {| Raw := created; GetDiags := [] |} resp') w2
       = [Call.Update (admin.Id res)
            {| admin.Id := "";
               admin.Email := admin.Email res;
               admin.Name := admin.Name res;
               admin.Description := admin.Description res |}].
Proof.
  intros Hdec Hresp' Hins.
  exists (model_of_group res). split.
  - rewrite (Create_run srv req resp Hdec), Hins. reflexivity.
  - unfold issued.
    rewrite Read_run, Delete_run, Update_run by exact Hresp'.
    cbn [recording admin.Groups_Get admin.Groups_Delete admin.Groups_Update].
    rewrite !record_call_run.
    cbn [Raw model_of_group group_literal GroupResourceModel.Name
           GroupResourceModel.Id GroupResourceModel.Email
           GroupResourceModel.Description ValueString fst snd].
    destruct (fst (runState (admin.Groups_Get srv (admin.Name res)) w2));
    destruct (fst (runState (admin.Groups_Delete srv (admin.Id res)) w2)) as [err|];
    try destruct (GroupResource.is_not_found err);
    destruct (fst (runState (admin.Groups_Update srv (admin.Id res) _) w2));
      repeat split.
Qed.

Lemma calls_after_Create_witness :
  exists created,
    State (fst (runState
                  (GroupResource.Create InMemory.directory (Sample.decoded Sample.plan)
                     Sample.no_response) [])) = Some created
    /\ issued (GroupResource.Read (recording InMemory.directory)
                 {| Raw := created; GetDiags := [] |} Sample.no_response)
         Sample.one_group
       = [Call.Get "Test Terraform Group"]
    /\ issued (GroupResource.Delete (recording InMemory.directory)
                 {| Raw := created; GetDiags := [] |} Sample.no_response)
         Sample.one_group
       = [Call.Delete "id:test-terraform@vandebron.nl"]
    /\ issued (GroupResource.Update (recording InMemory.directory)
                 {| Raw := created; GetDiags := [] |} Sample.no_response)
         Sample.one_group
       = [Call.Update "id:test-terraform@vandebron.nl"
            {| admin.Id := "";
               admin.Email := "test-terraform@vandebron.nl";
               admin.Name := "Test Terraform Group";
               admin.Description :=
                 "A group created via Terraform for testing purposes" |}].
Proof.
  apply (calls_after_Create InMemory.directory (Sample.decoded Sample.plan)
           Sample.no_response Sample.no_response [] Sample.one_group Sample.one_group
           {| admin.Id := "id:test-terraform@vandebron.nl";
              admin.Email := "test-terraform@vandebron.nl";
              admin.Name := "Test Terraform Group";
              admin.Description :=
                "A group created via Terraform for testing purposes" |});
    reflexivity.
Defined.

(** X7: of the prior state, [Read] uses the name only and [Delete] the id
    only, and each through [ValueString]: two states with the same name
    string read alike, two states with the same id string delete alike, and
    a null, an unknown and an empty field are the same to them. *)
Theorem Read_uses_name_Delete_uses_id {W : Type} (srv : admin.Service W)
    (a b c d : GroupResourceModel.t) (diags : diag.Diagnostics)
    (resp : Response GroupResourceModel.t) (w : W) :
  ValueString (GroupResourceModel.Name a) = ValueString (GroupResourceModel.Name b) ->
  ValueString (GroupResourceModel.Id c) = ValueString (GroupResourceModel.Id d) ->
  runState (GroupResource.Read srv {| Raw := a; GetDiags := diags |} resp) w
    = runState (GroupResource.Read srv {| Raw := b; GetDiags := diags |} resp) w
  /\ runState (GroupResource.Delete srv {| Raw := c; GetDiags := diags |} resp) w
    = runState (GroupResource.Delete srv {| Raw := d; GetDiags := diags |} resp) w.
Proof.
  intros Hname Hid. split.
  - unfold GroupResource.Read, Get. cbn [Raw GetDiags]. rewrite Hname. reflexivity.
  - unfold GroupResource.Delete, Get. cbn [Raw GetDiags]. rewrite Hid. reflexivity.
Qed.

Lemma Read_uses_name_Delete_uses_id_witness :
  GroupResourceModel.Description Sample.stored
    <> GroupResourceModel.Description Sample.changed
  /\ GroupResourceModel.Id Sample.forged = StringValue "chosen-by-client"
  /\ runState (GroupResource.Read InMemory.directory
                 (Sample.decoded Sample.stored) Sample.no_response) Sample.one_group
    = runState (GroupResource.Read InMemory.directory
                  (Sample.decoded Sample.changed) Sample.no_response) Sample.one_group
  /\ runState (GroupResource.Delete InMemory.directory
                 (Sample.decoded
                    {| GroupResourceModel.Name := StringNull;
                       GroupResourceModel.Email := StringNull;
                       GroupResourceModel.Description := StringNull;
                       GroupResourceModel.Id := StringValue "chosen-by-client" |})
                 Sample.no_response) Sample.one_group
    = runState (GroupResource.Delete InMemory.directory
                  (Sample.decoded Sample.forged) Sample.no_response) Sample.one_group.
Proof.
  split; [discriminate|]. split; [reflexivity|].
  apply (Read_uses_name_Delete_uses_id InMemory.directory
           Sample.stored Sample.changed
           {| GroupResourceModel.Name := StringNull;
              GroupResourceModel.Email := StringNull;
              GroupResourceModel.Description := StringNull;
              GroupResourceModel.Id := StringValue "chosen-by-client" |}
           Sample.forged [] Sample.no_response Sample.one_group);
    reflexivity.
Defined.

(** X8: an import by a non-empty ID stores a record whose id is that ID and
    whose other fields are null.  The [Read] that follows an import is then
    keyed by the empty string, whatever ID was imported, because [Read]
    looks the group up by name; [Delete] is keyed by the imported ID. *)
Theorem Read_after_ImportState_has_empty_key {W : Type} (srv : admin.Service W)
    (req_ID : string) (diags : diag.Diagnostics)
    (resp' : Response GroupResourceModel.t) (w : W) :
  String.eqb req_ID "" = false ->
  diag.HasError (Diagnostics resp') = false ->
  exists imported,
    GroupResourceSetup.ImportState req_ID {| State := None; Diagnostics := diags |}
      = {| State := Some imported; Diagnostics := diags |}
    /\ imported = {| GroupResourceModel.Name := StringNull;
                     GroupResourceModel.Email := StringNull;
                     GroupResourceModel.Description := StringNull;
                     GroupResourceModel.Id := StringValue req_ID |}
    /\ issued (GroupResource.Read (recording srv)
                 {| Raw := imported; GetDiags := [] |} resp') w
       = [Call.Get ""]
    /\ issued (GroupResource.Delete (recording srv)
                 {| Raw := imported; GetDiags := [] |} resp') w
       = [Call.Delete req_ID].
Proof.
  intros Hid Hresp'. eexists. split; [|split; [reflexivity|]].
  - unfold GroupResourceSetup.ImportState, GroupResourceSetup.ImportStatePassthroughID_id.
    rewrite Hid. reflexivity.
  - unfold issued. rewrite Read_run, Delete_run by exact Hresp'.
    cbn [recording admin.Groups_Get admin.Groups_Delete].
    rewrite !record_call_run.
    cbn [Raw GroupResourceModel.Name GroupResourceModel.Id ValueString fst snd].
    destruct (fst (runState (admin.Groups_Get srv "") w));
    destruct (fst (runState (admin.Groups_Delete srv req_ID) w)) as [err|];
    try destruct (GroupResource.is_not_found err); split; reflexivity.
Qed.

Lemma Read_after_ImportState_has_empty_key_witness :
  exists imported,
    GroupResourceSetup.ImportState "id:test-terraform@vandebron.nl"
      {| State := None; Diagnostics := [] |}
      = {| State := Some imported; Diagnostics := [] |}
    /\ imported = {| GroupResourceModel.Name := StringNull;
                     GroupResourceModel.Email := StringNull;
                     GroupResourceModel.Description := StringNull;
                     GroupResourceModel.Id :=
                       StringValue "id:test-terraform@vandebron.nl" |}
    /\ issued (GroupResource.Read (recording InMemory.directory)
                 {| Raw := imported; GetDiags := [] |} Sample.no_response)
         Sample.one_group
       = [Call.Get ""]
    /\ issued (GroupResource.Delete (recording InMemory.directory)
                 {| Raw := imported; GetDiags := [] |} Sample.no_response)
         Sample.one_group
       = [Call.Delete "id:test-terraform@vandebron.nl"].
Proof.
  apply (Read_after_ImportState_has_empty_key InMemory.directory
           "id:test-terraform@vandebron.nl" [] Sample.no_response Sample.one_group);
    reflexivity.
Defined.

(** X9: the group resource and the group data source read alike: past the
    decoding, for the same name string and the same directory, each issues
    one call, [Groups.Get] keyed by that name, whatever the directory
    answers; when the call succeeds both store the name, email, description
    and id of the answer, and when it fails both report an error. *)
Theorem GroupResource_and_GroupDataSource_read_alike {W : Type}
    (srv : admin.Service W)
    (prior : tfsdk_Data GroupResourceModel.t) (resp : Response GroupResourceModel.t)
    (config : tfsdk_Data GroupDataSourceModel.t) (dresp : Response GroupDataSourceModel.t)
    (w : W) :
  diag.HasError (diag.Append (Diagnostics resp) (GetDiags prior)) = false ->
  diag.HasError (diag.Append (Diagnostics dresp) (GetDiags config)) = false ->
  ValueString (GroupResourceModel.Name (Raw prior))
    = ValueString (GroupDataSourceModel.Name (Raw config)) ->
  issued (GroupResource.Read (recording srv) prior resp) w
    = [Call.Get (ValueString (GroupDataSourceModel.Name (Raw config)))]
  /\ issued (GroupDataSource.Read (recording srv) config dresp) w
    = [Call.Get (ValueString (GroupDataSourceModel.Name (Raw config)))]
  /\ match fst (runState
                  (admin.Groups_Get srv
                     (ValueString (GroupDataSourceModel.Name (Raw config)))) w) with
     | inl g =>
         State (fst (runState (GroupResource.Read srv prior resp) w))
           = Some {| GroupResourceModel.Name := StringValue (admin.Name g);
                     GroupResourceModel.Email := StringValue (admin.Email g);
                     GroupResourceModel.Description := StringValue (admin.Description g);
                     GroupResourceModel.Id := StringValue (admin.Id g) |}
         /\ State (fst (runState (GroupDataSource.Read srv config dresp) w))
           = Some {| GroupDataSourceModel.Name := StringValue (admin.Name g);
                     GroupDataSourceModel.Email := StringValue (admin.Email g);
                     GroupDataSourceModel.Description := StringValue (admin.Description g);
                     GroupDataSourceModel.Id := StringValue (admin.Id g) |}
     | inr _ =>
         diag.HasError
           (Diagnostics (fst (runState (GroupResource.Read srv prior resp) w))) = true
         /\ diag.HasError
              (Diagnostics (fst (runState (GroupDataSource.Read srv config dresp) w)))
            = true
     end.
Proof.
  intros Hprior Hconfig Hname. unfold issued.
  rewrite (Read_run (recording srv) prior resp Hprior),
    (DataSource_Read_run (recording srv) config dresp (w, []) Hconfig),
    (Read_run srv prior resp Hprior),
    (DataSource_Read_run srv config dresp w Hconfig).
  cbn [recording admin.Groups_Get]. rewrite !record_call_run, Hname.
  destruct (runState (admin.Groups_Get srv _) w) as [[g|err] w']; cbn [fst snd].
  - repeat split.
  - repeat split; apply HasError_AddError.
Qed.

Lemma GroupResource_and_GroupDataSource_read_alike_witness :
  issued (GroupResource.Read (recording InMemory.directory)
            (Sample.decoded Sample.forged) Sample.no_response) [Sample.everyone_group]
    = [Call.Get "everyone@vandebron.nl"]
  /\ issued (GroupDataSource.Read (recording InMemory.directory)
               (Sample.decoded
              {| GroupDataSourceModel.Name := StringValue "everyone@vandebron.nl";
                 GroupDataSourceModel.Email := StringNull;
                 GroupDataSourceModel.Description := StringNull;
                 GroupDataSourceModel.Id := StringNull |})
               Sample.no_response) [Sample.everyone_group]
    = [Call.Get "everyone@vandebron.nl"]
  /\ (State (fst (runState
                    (GroupResource.Read InMemory.directory
                       (Sample.decoded Sample.forged) Sample.no_response)
                    [Sample.everyone_group]))
      = Some {| GroupResourceModel.Name := StringValue "everyone@vandebron.nl";
                GroupResourceModel.Email := StringValue "everyone@vandebron.nl";
                GroupResourceModel.Description := StringValue "";
                GroupResourceModel.Id := StringValue "id:everyone@vandebron.nl" |}
      /\ State (fst (runState
                       (GroupDataSource.Read InMemory.directory
                          (Sample.decoded
              {| GroupDataSourceModel.Name := StringValue "everyone@vandebron.nl";
                 GroupDataSourceModel.Email := StringNull;
                 GroupDataSourceModel.Description := StringNull;
                 GroupDataSourceModel.Id := StringNull |})
                          Sample.no_response)
                       [Sample.everyone_group]))
        = Some {| GroupDataSourceModel.Name := StringValue "everyone@vandebron.nl";
                  GroupDataSourceModel.Email := StringValue "everyone@vandebron.nl";
                  GroupDataSourceModel.Description := StringValue "";
                  GroupDataSourceModel.Id := StringValue "id:everyone@vandebron.nl" |}).
Proof.
  exact (GroupResource_and_GroupDataSource_read_alike InMemory.directory
           (Sample.decoded Sample.forged) Sample.no_response
           (Sample.decoded
              {| GroupDataSourceModel.Name := StringValue "everyone@vandebron.nl";
                 GroupDataSourceModel.Email := StringNull;
                 GroupDataSourceModel.Description := StringNull;
                 GroupDataSourceModel.Id := StringNull |})
           Sample.no_response
           [Sample.everyone_group] eq_refl eq_refl eq_refl).
Defined.

(** ** Configuring the provider *)

(** X10: [Configure] of the provider ends the process exactly when the
    configuration decodes without error and the credentials file cannot be
    read; contents that do not parse, or a missing impersonated user, never
    do. *)
Theorem Configure_fatal_iff_unreadable
    (os_ReadFile : string -> string + error)
    (google_JWTConfigFromJSON : string -> list string -> jwt.Config + error)
    (req : tfsdk_Data GoogleWorkspaceProviderModel.t) (resp : ConfigureResponse.t) :
  (exists logged,
      GoogleWorkspaceProvider.Configure os_ReadFile google_JWTConfigFromJSON req resp
        = Fatal logged)
  <-> (diag.HasError (diag.Append (ConfigureResponse.Diagnostics resp) (GetDiags req))
         = false
       /\ exists err,
           os_ReadFile (ValueString (GoogleWorkspaceProviderModel.Credentials (Raw req)))
             = inr err).
Proof.
  unfold GoogleWorkspaceProvider.Configure, Get.
  cbn [ConfigureResponse.Diagnostics].
  destruct (diag.HasError
              (diag.Append (ConfigureResponse.Diagnostics resp) (GetDiags req))).
  - split; [intros [logged H]; discriminate | intros [H _]; discriminate].
  - destruct (os_ReadFile _) as [b|err].
    + split.
      * intros [logged H].
        destruct (google_JWTConfigFromJSON b _); [|discriminate].
        destruct (IsNull _ || IsUnknown _); discriminate.
      * intros [_ [err H]]. discriminate.
    + split; intros _; [split; [reflexivity | now exists err] | eexists; reflexivity].
Qed.

(** X11: when the file is read, its contents parse and the impersonated
    user is a known value, [Configure] hands the same client to the data
    sources and to the resources: the parsed service account, asked for the
    group and user scopes of the directory, acting as the impersonated user;
    it adds no diagnostic. *)
Theorem Configure_hands_out_one_client
    (os_ReadFile : string -> string + error)
    (google_JWTConfigFromJSON : string -> list string -> jwt.Config + error)
    (req : tfsdk_Data GoogleWorkspaceProviderModel.t) (resp : ConfigureResponse.t)
    (b subject : string) (config : jwt.Config) :
  diag.HasError (diag.Append (ConfigureResponse.Diagnostics resp) (GetDiags req))
    = false ->
  os_ReadFile (ValueString (GoogleWorkspaceProviderModel.Credentials (Raw req)))
    = inl b ->
  google_JWTConfigFromJSON b
    ["https://www.googleapis.com/auth/admin.directory.group";
     "https://www.googleapis.com/auth/admin.directory.user"] = inl config ->
  GoogleWorkspaceProviderModel.ImpersonatedUserEmail (Raw req) = StringValue subject ->
  let client :=
    Config_Client {| jwt.Email := jwt.Email config;
                     jwt.PrivateKey := jwt.PrivateKey config;
                     jwt.Scopes := jwt.Scopes config;
                     jwt.Subject := subject |} in
  GoogleWorkspaceProvider.Configure os_ReadFile google_JWTConfigFromJSON req resp
    = Returns {| ConfigureResponse.DataSourceData := Some client;
                 ConfigureResponse.ResourceData := Some client;
                 ConfigureResponse.Diagnostics :=
                   diag.Append (ConfigureResponse.Diagnostics resp) (GetDiags req) |}.
Proof.
  intros Hdec Hfile Hparse Hemail client. subst client.
  unfold GoogleWorkspaceProvider.Configure, Get.
  cbn [ConfigureResponse.Diagnostics]. rewrite Hdec, Hfile.
  change [admin.AdminDirectoryGroupScope; admin.AdminDirectoryUserScope]
    with ["https://www.googleapis.com/auth/admin.directory.group";
          "https://www.googleapis.com/auth/admin.directory.user"].
  rewrite Hparse, Hemail. reflexivity.
Qed.

Lemma Configure_hands_out_one_client_witness :
  GoogleWorkspaceProvider.Configure Sample.key_files Sample.parse
    (Sample.decoded Sample.provider_config) Sample.unconfigured
  = Returns
      {| ConfigureResponse.DataSourceData :=
           Some (Config_Client
                   {| jwt.Email := "";
                      jwt.PrivateKey := "service-account-key";
                      jwt.Scopes :=
                        ["https://www.googleapis.com/auth/admin.directory.group";
                         "https://www.googleapis.com/auth/admin.directory.user"];
                      jwt.Subject := "admin@vandebron.nl" |});
         ConfigureResponse.ResourceData :=
           Some (Config_Client
                   {| jwt.Email := "";
                      jwt.PrivateKey := "service-account-key";
                      jwt.Scopes :=
                        ["https://www.googleapis.com/auth/admin.directory.group";
                         "https://www.googleapis.com/auth/admin.directory.user"];
                      jwt.Subject := "admin@vandebron.nl" |});
         ConfigureResponse.Diagnostics := [] |}.
Proof.
  apply (Configure_hands_out_one_client Sample.key_files Sample.parse
           (Sample.decoded Sample.provider_config) Sample.unconfigured
           "service-account-key" "admin@vandebron.nl"
           {| jwt.Email := "";
              jwt.PrivateKey := "service-account-key";
              jwt.Scopes :=
                ["https://www.googleapis.com/auth/admin.directory.group";
                 "https://www.googleapis.com/auth/admin.directory.user"];
              jwt.Subject := "" |});
    reflexivity.
Defined.

Ltac proj_resp :=
  cbn [ConfigureResponse.Diagnostics ConfigureResponse.DataSourceData
         ConfigureResponse.ResourceData].

(** X12: whenever [Configure] of the provider returns, on a response that
    held no client, the data sources and the resources are handed the same
    thing, and a client is handed out exactly when no error is reported. *)
Theorem Configure_client_iff_no_error
    (os_ReadFile : string -> string + error)
    (google_JWTConfigFromJSON : string -> list string -> jwt.Config + error)
    (req : tfsdk_Data GoogleWorkspaceProviderModel.t) (resp resp' : ConfigureResponse.t) :
  ConfigureResponse.DataSourceData resp = None ->
  ConfigureResponse.ResourceData resp = None ->
  GoogleWorkspaceProvider.Configure os_ReadFile google_JWTConfigFromJSON req resp
    = Returns resp' ->
  ConfigureResponse.DataSourceData resp' = ConfigureResponse.ResourceData resp'
  /\ (diag.HasError (ConfigureResponse.Diagnostics resp') = false
      <-> ConfigureResponse.DataSourceData resp' <> None).
Proof.
  intros Hd Hr. unfold GoogleWorkspaceProvider.Configure, Get.
  cbn [ConfigureResponse.Diagnostics ConfigureResponse.DataSourceData
         ConfigureResponse.ResourceData].
  rewrite Hd, Hr.
  destruct (diag.HasError
              (diag.Append (ConfigureResponse.Diagnostics resp) (GetDiags req)))
    eqn:Hdec.
  - intros H. injection H as <-; proj_resp. rewrite Hdec.
    split; [reflexivity|]. split; [discriminate | intros H; now elim H].
  - destruct (os_ReadFile _) as [b|err]; [|discriminate].
    destruct (google_JWTConfigFromJSON b _) as [config|err].
    + destruct (IsNull _ || IsUnknown _); intros H; injection H as <-; proj_resp.
      * rewrite HasError_AddError.
        split; [reflexivity|]. split; [discriminate | intros H; now elim H].
      * rewrite Hdec. split; [reflexivity|]. split; [discriminate | reflexivity].
    + intros H. injection H as <-; proj_resp. rewrite HasError_AddError.
      split; [reflexivity|]. split; [discriminate | intros H; now elim H].
Qed.

Lemma Configure_client_iff_no_error_witness :
  ConfigureResponse.DataSourceData
    {| ConfigureResponse.DataSourceData := None;
       ConfigureResponse.ResourceData := None;
       ConfigureResponse.Diagnostics :=
         [diag.NewErrorDiagnostic
            "Missing Impersonated User Email"
            "When using Domain-Wide Delegation, you must provide the email of the admin user to impersonate."] |}
  = None
  /\ (diag.HasError
        [diag.NewErrorDiagnostic
           "Missing Impersonated User Email"
           "When using Domain-Wide Delegation, you must provide the email of the admin user to impersonate."]
      = false
      <-> @None http_Client <> None).
Proof.
  exact (Configure_client_iff_no_error Sample.key_files Sample.parse
           (Sample.decoded
              {| GoogleWorkspaceProviderModel.Credentials :=
                   StringValue "../../credentials.json";
                 GoogleWorkspaceProviderModel.ImpersonatedUserEmail := StringUnknown |})
           Sample.unconfigured
           {| ConfigureResponse.DataSourceData := None;
              ConfigureResponse.ResourceData := None;
              ConfigureResponse.Diagnostics :=
                [diag.NewErrorDiagnostic
                   "Missing Impersonated User Email"
                   "When using Domain-Wide Delegation, you must provide the email of the admin user to impersonate."] |}
           eq_refl eq_refl eq_refl).
Defined.

(** ** Configuring the resource and the data sources *)

(** X13: what the provider hands out is what the resource and the data
    sources expect.  When [Configure] of the provider returns without an
    error, the [Configure] of the group resource, of the group data source
    and of the policy data source, given that data, never report an
    unexpected type: each keeps the client and the service built from it,
    or ends the process when the service cannot be built. *)
Theorem Configure_accepts_provider_data {W V : Type}
    (os_ReadFile : string -> string + error)
    (google_JWTConfigFromJSON : string -> list string -> jwt.Config + error)
    (admin_NewService : http_Client -> admin.Service W + error)
    (cloudidentity_NewService : http_Client -> cloudidentity.Service V + error)
    (req : tfsdk_Data GoogleWorkspaceProviderModel.t) (resp resp' : ConfigureResponse.t)
    (g : GroupResourceSetup.GroupResource W)
    (d : GroupDataSourceSetup.GroupDataSource W)
    (p : CloudIdentityPolicyDataSourceSetup.CloudIdentityPolicyDataSource V)
    (diags : diag.Diagnostics) :
  GoogleWorkspaceProvider.Configure os_ReadFile google_JWTConfigFromJSON req resp
    = Returns resp' ->
  diag.HasError (ConfigureResponse.Diagnostics resp') = false ->
  exists c,
    ConfigureResponse.ResourceData resp' = Some c
    /\ ConfigureResponse.DataSourceData resp' = Some c
    /\ GroupResourceSetup.Configure admin_NewService g
         (ProviderData_of (ConfigureResponse.ResourceData resp')) diags
       = match admin_NewService c with
         | inl srv =>
             Returns ({| GroupResourceSetup.client := Some c;
                         GroupResourceSetup.adminService := Some srv |}, diags)
         | inr err => Fatal ("Unable to retrieve directory Client " ++ Error err)
         end
    /\ GroupDataSourceSetup.Configure admin_NewService d
         (ProviderData_of (ConfigureResponse.DataSourceData resp')) diags
       = match admin_NewService c with
         | inl srv =>
             Returns ({| GroupDataSourceSetup.client := Some c;
                         GroupDataSourceSetup.adminService := Some srv |}, diags)
         | inr err => Fatal ("Unable to retrieve directory Client " ++ Error err)
         end
    /\ CloudIdentityPolicyDataSourceSetup.Configure cloudidentity_NewService p
         (ProviderData_of (ConfigureResponse.DataSourceData resp')) diags
       = match cloudidentity_NewService c with
         | inl srv =>
             Returns ({| CloudIdentityPolicyDataSourceSetup.client := Some c;
                         CloudIdentityPolicyDataSourceSetup.cloudidentityService :=
                           Some srv |}, diags)
         | inr err => Fatal ("Unable to retrieve directory Client " ++ Error err)
         end.
Proof.
  unfold GoogleWorkspaceProvider.Configure, Get. proj_resp.
  destruct (diag.HasError
              (diag.Append (ConfigureResponse.Diagnostics resp) (GetDiags req)))
    eqn:Hdec.
  - intros H. injection H as <-. proj_resp. congruence.
  - destruct (os_ReadFile _) as [b|err]; [|discriminate].
    destruct (google_JWTConfigFromJSON b _) as [config|err].
    + destruct (IsNull _ || IsUnknown _); intros H; injection H as <-; proj_resp.
      * rewrite HasError_AddError. discriminate.
      * intros _. eexists. split; [reflexivity|]. split; [reflexivity|].
        unfold GroupResourceSetup.Configure, GroupDataSourceSetup.Configure,
          CloudIdentityPolicyDataSourceSetup.Configure, ProviderData_of.
        cbn [option_map]. repeat split.
    + intros H. injection H as <-. proj_resp. rewrite HasError_AddError. discriminate.
Qed.

Lemma Configure_accepts_provider_data_witness :
  exists c,
    c = Config_Client
          {| jwt.Email := "";
             jwt.PrivateKey := "service-account-key";
             jwt.Scopes := [admin.AdminDirectoryGroupScope; admin.AdminDirectoryUserScope];
             jwt.Subject := "admin@vandebron.nl" |}
    /\ GroupResourceSetup.Configure Sample.new_directory
         {| GroupResourceSetup.client := None; GroupResourceSetup.adminService := None |}
         (Some (any_Client c)) []
       = Returns ({| GroupResourceSetup.client := Some c;
                     GroupResourceSetup.adminService := Some InMemory.directory |}, []).
Proof.
  destruct (Configure_accepts_provider_data Sample.key_files Sample.parse
              Sample.new_directory Sample.new_policies
              (Sample.decoded Sample.provider_config) Sample.unconfigured
              {| ConfigureResponse.DataSourceData :=
                   Some (Config_Client
                           {| jwt.Email := "";
                              jwt.PrivateKey := "service-account-key";
                              jwt.Scopes := [admin.AdminDirectoryGroupScope;
                                             admin.AdminDirectoryUserScope];
                              jwt.Subject := "admin@vandebron.nl" |});
                 ConfigureResponse.ResourceData :=
                   Some (Config_Client
                           {| jwt.Email := "";
                              jwt.PrivateKey := "service-account-key";
                              jwt.Scopes := [admin.AdminDirectoryGroupScope;
                                             admin.AdminDirectoryUserScope];
                              jwt.Subject := "admin@vandebron.nl" |});
                 ConfigureResponse.Diagnostics := [] |}
              {| GroupResourceSetup.client := None;
                 GroupResourceSetup.adminService := None |}
              {| GroupDataSourceSetup.client := None;
                 GroupDataSourceSetup.adminService := None |}
              {| CloudIdentityPolicyDataSourceSetup.client := None;
                 CloudIdentityPolicyDataSourceSetup.cloudidentityService := None |}
              [] eq_refl eq_refl)
    as [c [Hc [_ [Hg _]]]].
  cbn in Hc. injection Hc as <-.
  eexists. split; [reflexivity|]. exact Hg.
Defined.

(** X14: a [Configure] of the resource or of a data source that returns
    leaves its struct either as it was or with both the client and the
    service set, and adds a diagnostic only in the first case: the struct
    never holds a client without its service. *)
Theorem Configure_all_or_nothing {W V : Type}
    (admin_NewService : http_Client -> admin.Service W + error)
    (cloudidentity_NewService : http_Client -> cloudidentity.Service V + error)
    (g g' : GroupResourceSetup.GroupResource W)
    (d d' : GroupDataSourceSetup.GroupDataSource W)
    (p p' : CloudIdentityPolicyDataSourceSetup.CloudIdentityPolicyDataSource V)
    (data : option any) (diags dg dd dp : diag.Diagnostics) :
  GroupResourceSetup.Configure admin_NewService g data diags = Returns (g', dg) ->
  GroupDataSourceSetup.Configure admin_NewService d data diags = Returns (d', dd) ->
  CloudIdentityPolicyDataSourceSetup.Configure cloudidentity_NewService p data diags
    = Returns (p', dp) ->
  (g' = g
   \/ dg = diags
      /\ exists c srv, g' = {| GroupResourceSetup.client := Some c;
                               GroupResourceSetup.adminService := Some srv |})
  /\ (d' = d
      \/ dd = diags
         /\ exists c srv, d' = {| GroupDataSourceSetup.client := Some c;
                                  GroupDataSourceSetup.adminService := Some srv |})
  /\ (p' = p
      \/ dp = diags
         /\ exists c srv,
             p' = {| CloudIdentityPolicyDataSourceSetup.client := Some c;
                     CloudIdentityPolicyDataSourceSetup.cloudidentityService :=
                       Some srv |}).
Proof.
  unfold GroupResourceSetup.Configure, GroupDataSourceSetup.Configure,
    CloudIdentityPolicyDataSourceSetup.Configure.
  destruct data as [[c|T]|].
  - destruct (admin_NewService c) as [srv|err]; [|discriminate].
    destruct (cloudidentity_NewService c) as [psrv|err]; [|intros _ _; discriminate].
    intros Hg Hd Hp. injection Hg as <- <-. injection Hd as <- <-.
    injection Hp as <- <-.
    repeat split; right; (split; [reflexivity|]); do 2 eexists; reflexivity.
  - intros Hg Hd Hp. injection Hg as <- _. injection Hd as <- _. injection Hp as <- _.
    repeat split; left; reflexivity.
  - intros Hg Hd Hp. injection Hg as <- _. injection Hd as <- _. injection Hp as <- _.
    repeat split; left; reflexivity.
Qed.

Lemma Configure_all_or_nothing_witness :
  exists diags',
    GroupResourceSetup.Configure Sample.new_directory
      {| GroupResourceSetup.client := None; GroupResourceSetup.adminService := None |}
      (Some (any_other "string")) []
    = Returns ({| GroupResourceSetup.client := None;
                  GroupResourceSetup.adminService := None |}, diags')
    /\ diag.HasError diags' = true
    /\ ({| GroupResourceSetup.client := None;
           GroupResourceSetup.adminService := @None (admin.Service (list admin.Group)) |}
        = {| GroupResourceSetup.client := None; GroupResourceSetup.adminService := None |}
        \/ diags' = []
           /\ exists c srv,
               {| GroupResourceSetup.client := None;
                  GroupResourceSetup.adminService :=
                    @None (admin.Service (list admin.Group)) |}
               = {| GroupResourceSetup.client := Some c;
                    GroupResourceSetup.adminService := Some srv |}).
Proof.
  eexists. split; [reflexivity|]. split; [reflexivity|].
  exact (proj1
           (Configure_all_or_nothing Sample.new_directory Sample.new_policies
              {| GroupResourceSetup.client := None;
                 GroupResourceSetup.adminService := None |} _
              {| GroupDataSourceSetup.client := None;
                 GroupDataSourceSetup.adminService := None |} _
              {| CloudIdentityPolicyDataSourceSetup.client := None;
                 CloudIdentityPolicyDataSourceSetup.cloudidentityService := None |} _
              (Some (any_other "string")) [] _ _ _ eq_refl eq_refl eq_refl)).
Defined.

(** ** Type names *)

Lemma append_same_prefix (p a b : string) : (p ++ a)%string = (p ++ b)%string -> a = b.
Proof.
  induction p as [|c p IH]; simpl; intros H; [exact H|].
  injection H as H. exact (IH H).
Qed.

(** X15: for every provider type name, the group resource and the group
    data source are registered under the same type name, the provider's
    followed by "_group", and the policy data source under the provider's
    followed by "_cloud_identity_policy", which is a different name, so the
    two data sources never collide. *)
Theorem Metadata_type_names (ProviderTypeName : string) :
  GroupResourceSetup.Metadata ProviderTypeName = (ProviderTypeName ++ "_group")%string
  /\ GroupDataSourceSetup.Metadata ProviderTypeName
     = (ProviderTypeName ++ "_group")%string
  /\ CloudIdentityPolicyDataSourceSetup.Metadata ProviderTypeName
     = (ProviderTypeName ++ "_cloud_identity_policy")%string
  /\ GroupResourceSetup.Metadata ProviderTypeName
     = GroupDataSourceSetup.Metadata ProviderTypeName
  /\ GroupDataSourceSetup.Metadata ProviderTypeName
     <> CloudIdentityPolicyDataSourceSetup.Metadata ProviderTypeName
  /\ String.prefix ProviderTypeName (GroupDataSourceSetup.Metadata ProviderTypeName)
     = true
  /\ String.prefix ProviderTypeName
       (CloudIdentityPolicyDataSourceSetup.Metadata ProviderTypeName) = true.
Proof.
  unfold GroupResourceSetup.Metadata, GroupDataSourceSetup.Metadata,
    CloudIdentityPolicyDataSourceSetup.Metadata.
  do 4 (split; [reflexivity|]). split.
  - intros H. apply append_same_prefix in H. discriminate.
  - split; induction ProviderTypeName as [|c p IH]; simpl;
      try reflexivity; destruct (Ascii.ascii_dec c c); congruence.
Qed.

(** ** Diagnostics are only ever added *)

Lemma Append_extends (ds new : diag.Diagnostics) :
  exists extra, diag.Append ds new = ds ++ extra.
Proof.
  unfold diag.Append. revert ds.
  induction new as [|d new IH]; intros ds; simpl.
  - exists []. now rewrite app_nil_r.
  - destruct (diag.Contains ds d).
    + apply IH.
    + destruct (IH (ds ++ [d])) as [extra H]. exists (d :: extra).
      rewrite H, <- app_assoc. reflexivity.
Qed.

Lemma Append_twice_extends (ds new new' : diag.Diagnostics) :
  exists extra, diag.Append (diag.Append ds new) new' = ds ++ extra.
Proof.
  destruct (Append_extends ds new) as [e1 H1].
  destruct (Append_extends (diag.Append ds new) new') as [e2 H2].
  exists (e1 ++ e2). rewrite H2, H1, app_assoc. reflexivity.
Qed.

Ltac extends_Append :=
  cbn [fst State_Set Diagnostics_Append Diagnostics];
  first [apply Append_extends | apply Append_twice_extends].
Ltac extends_AddError :=
  cbn [fst Diagnostics_AddError Diagnostics_Append Diagnostics];
  unfold diag.AddError; apply Append_twice_extends.

(** X16: no handler drops a diagnostic: whatever the request and whatever
    the service answers, the diagnostics of the response that a handler of
    the group resource or a read of a data source returns start with the
    diagnostics the response held before, in order. *)
Theorem handlers_keep_diagnostics {W V : Type}
    (srv : admin.Service W) (policies : cloudidentity.Service V)
    (req : tfsdk_Data GroupResourceModel.t) (resp : Response GroupResourceModel.t)
    (config : tfsdk_Data GroupDataSourceModel.t) (dresp : Response GroupDataSourceModel.t)
    (pconfig : tfsdk_Data CloudIdentityPolicyDataSourceModel.t)
    (presp : Response CloudIdentityPolicyDataSourceModel.t)
    (w : W) (v : V) :
  let extends (before after : diag.Diagnostics) :=
    exists extra, after = before ++ extra in
  extends (Diagnostics resp)
    (Diagnostics (fst (runState (GroupResource.Create srv req resp) w)))
  /\ extends (Diagnostics resp)
       (Diagnostics (fst (runState (GroupResource.Read srv req resp) w)))
  /\ extends (Diagnostics resp)
       (Diagnostics (fst (runState (GroupResource.Update srv req resp) w)))
  /\ extends (Diagnostics resp)
       (Diagnostics (fst (runState (GroupResource.Delete srv req resp) w)))
  /\ extends (Diagnostics dresp)
       (Diagnostics (fst (runState (GroupDataSource.Read srv config dresp) w)))
  /\ extends (Diagnostics presp)
       (Diagnostics
          (fst (runState (CloudIdentityPolicyDataSource.Read policies pconfig presp) v))).
Proof.
  intros extends. subst extends. cbv beta.
  repeat split.
  - destruct (diag.HasError (diag.Append (Diagnostics resp) (GetDiags req))) eqn:Hdec.
    + unfold GroupResource.Create, Get. cbn [Diagnostics_Append Diagnostics].
      rewrite Hdec. apply Append_extends.
    + rewrite (Create_run srv req resp Hdec).
      destruct (runState (admin.Groups_Insert srv _) w) as [[res|err] w'];
        [extends_Append | extends_AddError].
  - destruct (diag.HasError (diag.Append (Diagnostics resp) (GetDiags req))) eqn:Hdec.
    + unfold GroupResource.Read, Get. cbn [Diagnostics_Append Diagnostics].
      rewrite Hdec. apply Append_extends.
    + rewrite (Read_run srv req resp Hdec).
      destruct (runState (admin.Groups_Get srv _) w) as [[res|err] w'];
        [extends_Append | extends_AddError].
  - destruct (diag.HasError (diag.Append (Diagnostics resp) (GetDiags req))) eqn:Hdec.
    + unfold GroupResource.Update, Get. cbn [Diagnostics_Append Diagnostics].
      rewrite Hdec. apply Append_extends.
    + rewrite (Update_run srv req resp Hdec).
      destruct (runState (admin.Groups_Update srv _ _) w) as [[res|err] w'];
        [extends_Append | extends_AddError].
  - destruct (diag.HasError (diag.Append (Diagnostics resp) (GetDiags req))) eqn:Hdec.
    + unfold GroupResource.Delete, Get. cbn [Diagnostics_Append Diagnostics].
      rewrite Hdec. apply Append_extends.
    + rewrite (Delete_run srv req resp Hdec).
      destruct (runState (admin.Groups_Delete srv _) w) as [[err|] w'];
        [|extends_Append].
      destruct (GroupResource.is_not_found err);
        [extends_Append | extends_AddError].
  - destruct (diag.HasError (diag.Append (Diagnostics dresp) (GetDiags config)))
      eqn:Hdec.
    + unfold GroupDataSource.Read, Get. cbn [Diagnostics_Append Diagnostics].
      rewrite Hdec. apply Append_extends.
    + rewrite (DataSource_Read_run srv config dresp w Hdec).
      destruct (runState (admin.Groups_Get srv _) w) as [[res|err] w'];
        [extends_Append | extends_AddError].
  - destruct (diag.HasError (diag.Append (Diagnostics presp) (GetDiags pconfig)))
      eqn:Hdec.
    + unfold CloudIdentityPolicyDataSource.Read, Get.
      cbn [Diagnostics_Append Diagnostics].
      rewrite Hdec. apply Append_extends.
    + rewrite (Policy_Read_run policies pconfig presp v Hdec).
      destruct (runState (cloudidentity.Policies_Get policies _) v) as [[res|err] v'];
        [extends_Append | extends_AddError].
Qed.
